(** * Session engine of the snooker-house backend: model and properties

    The development embeds the billing core of the backend
    ([models/Session.js], [models/Table.js], [models/Product.js] and the
    session and inventory controllers) and proves properties of the
    session lifecycle, the cost model and the stock ledger.

    Conventions of the embedding.
    - A JavaScript [Number] holding money is an exact rational ([Q]);
      rounding of IEEE doubles is not modelled.  Stock counts, item
      quantities, frame counters and millisecond timestamps are integers
      ([Z]).
    - [Date.now()] and [new Date()] are an explicit argument [now]; all
      clock reads of one request see the same instant.
    - A MongoDB collection is a finite map from [_id] to document;
      [doc.save()] writes the in-memory document back under its [_id].
      Mongoose schema validators are not run by the model; where a
      property depends on them they appear as hypotheses.
    - Bookkeeping fields that take no part in billing (customer name and
      phone, free-text notes, venue reference, modification stamps) are
      left out. *)

From Stdlib Require Import ZArith QArith Qminmax Lqa Lia Sorted.
From stdpp Require Import gmap strings list fin_maps.

Local Open Scope Z_scope.

Definition ObjectId := positive.
Definition Timestamp := Z.

(** [pricingMethod] enum shared by tables and sessions. *)
Inductive PricingMethod := per_minute | frame_kitti.

#[global] Instance PricingMethod_eq_dec : EqDecision PricingMethod.
Proof. solve_decision. Defined.

(** ** models/Product.js *)
Module Product.

Record t := {
  owner : ObjectId;
  name : string;
  costPrice : Q;
  sellingPrice : Q;
  currentStock : Z
}.

Definition set_currentStock (v : Z) (r : t) : t :=
  {| owner := owner r; name := name r; costPrice := costPrice r;
     sellingPrice := sellingPrice r; currentStock := v |}.

(** [productSchema.methods.updateStock]; an operation string other than
    the three known ones falls through every branch and changes
    nothing. *)
Definition updateStock (quantity : Z) (operation : string) (p : t) : t :=
  if String.eqb operation "add" then
    set_currentStock (currentStock p + quantity) p
  else if String.eqb operation "subtract" then
    set_currentStock (Z.max 0 (currentStock p - quantity)) p
  else if String.eqb operation "set" then
    set_currentStock (Z.max 0 quantity) p
  else p.

End Product.

(** ** models/Table.js *)
Module Table.

Inductive Status := active | maintenance | inactive.

#[global] Instance Status_eq_dec : EqDecision Status.
Proof. solve_decision. Defined.

Record t := {
  owner : ObjectId;
  status : Status;
  pricingMethod : PricingMethod;
  hourlyRate : Q;
  frameRate : Q;
  kittiRate : Q;
  isOccupied : bool;
  currentBooking : option ObjectId
}.

Definition set_isOccupied (v : bool) (r : t) : t :=
  {| owner := owner r; status := status r; pricingMethod := pricingMethod r;
     hourlyRate := hourlyRate r; frameRate := frameRate r; kittiRate := kittiRate r;
     isOccupied := v; currentBooking := currentBooking r |}.
Definition set_currentBooking (v : option ObjectId) (r : t) : t :=
  {| owner := owner r; status := status r; pricingMethod := pricingMethod r;
     hourlyRate := hourlyRate r; frameRate := frameRate r; kittiRate := kittiRate r;
     isOccupied := isOccupied r; currentBooking := v |}.

(** [tableSchema.methods.isAvailable] *)
Definition isAvailable (tb : t) : bool :=
  bool_decide (status tb = active) && negb (isOccupied tb).

(** [tableSchema.methods.calculateCost]; [None] stands for the thrown
    error when [minutes] is missing or zero. *)
Definition calculateCost (minutes frames kittis : Z) (tb : t) : option Q :=
  match pricingMethod tb with
  | per_minute =>
      if minutes =? 0 then None
      else Some ((hourlyRate tb / 60) * inject_Z minutes)%Q
  | frame_kitti =>
      Some (inject_Z frames * frameRate tb + inject_Z kittis * kittiRate tb)%Q
  end.

End Table.

(** ** models/Session.js: item and payment sub-documents *)
Module SessionItem.

Record t := {
  _id : ObjectId;
  product : ObjectId;
  productName : string;
  quantity : Z;
  costPrice : Q;
  sellingPrice : Q;
  totalCost : Q;
  totalRevenue : Q;
  profit : Q;
  addedAt : Timestamp
}.

End SessionItem.

Module Payment.

Record t := {
  method : string;
  methodLabel : string;
  amount : Q;
  paidAt : Timestamp;
  transactionId : string;
  notes : string
}.

End Payment.

(** Argument of [recordPayment]. *)
Record PaymentData := {
  pd_method : string;
  pd_amount : Q;
  pd_transactionId : string;
  pd_notes : string
}.

(** Argument of [addItem]. *)
Record ItemData := {
  id_itemId : ObjectId;
  id_product : ObjectId;
  id_productName : string;
  id_quantity : Z;
  id_costPrice : Q;
  id_sellingPrice : Q
}.

(** ** models/Session.js *)
Module Session.

Inductive Status := active | paused | completed | cancelled.
Inductive PaymentStatus := pending | paid | credit.

#[global] Instance Status_eq_dec : EqDecision Status.
Proof. solve_decision. Defined.
#[global] Instance PaymentStatus_eq_dec : EqDecision PaymentStatus.
Proof. solve_decision. Defined.

Record t := {
  table : ObjectId;
  owner : ObjectId;
  status : Status;
  startTime : Timestamp;
  endTime : option Timestamp;
  pausedAt : option Timestamp;
  totalPausedTime : Z;
  frames : Z;
  kittis : Z;
  items : list SessionItem.t;
  totalItems : Z;
  totalItemsCost : Q;
  totalItemsRevenue : Q;
  totalItemsProfit : Q;
  pricingMethod : PricingMethod;
  minuteRate : option Q;
  hourlyRate : Q;
  frameRate : Q;
  kittiRate : Q;
  gameCost : Q;
  totalCost : Q;
  paymentStatus : PaymentStatus;
  paymentMethod : option string;
  paymentMethodLabel : option string;
  payments : list Payment.t;
  totalPaidAmount : Q;
  remainingAmount : Q;
  paymentNotes : string;
  paymentCompletedAt : option Timestamp
}.

Definition set_status (v : Status) (r : t) : t :=
  {| table := table r; owner := owner r; status := v; startTime := startTime r;
     endTime := endTime r; pausedAt := pausedAt r; totalPausedTime := totalPausedTime r;
     frames := frames r; kittis := kittis r; items := items r; totalItems := totalItems r;
     totalItemsCost := totalItemsCost r; totalItemsRevenue := totalItemsRevenue r;
     totalItemsProfit := totalItemsProfit r; pricingMethod := pricingMethod r;
     minuteRate := minuteRate r; hourlyRate := hourlyRate r; frameRate := frameRate r;
     kittiRate := kittiRate r; gameCost := gameCost r; totalCost := totalCost r;
     paymentStatus := paymentStatus r; paymentMethod := paymentMethod r;
     paymentMethodLabel := paymentMethodLabel r; payments := payments r;
     totalPaidAmount := totalPaidAmount r; remainingAmount := remainingAmount r;
     paymentNotes := paymentNotes r; paymentCompletedAt := paymentCompletedAt r |}.
Definition set_endTime (v : option Timestamp) (r : t) : t :=
  {| table := table r; owner := owner r; status := status r; startTime := startTime r;
     endTime := v; pausedAt := pausedAt r; totalPausedTime := totalPausedTime r;
     frames := frames r; kittis := kittis r; items := items r; totalItems := totalItems r;
     totalItemsCost := totalItemsCost r; totalItemsRevenue := totalItemsRevenue r;
     totalItemsProfit := totalItemsProfit r; pricingMethod := pricingMethod r;
     minuteRate := minuteRate r; hourlyRate := hourlyRate r; frameRate := frameRate r;
     kittiRate := kittiRate r; gameCost := gameCost r; totalCost := totalCost r;
     paymentStatus := paymentStatus r; paymentMethod := paymentMethod r;
     paymentMethodLabel := paymentMethodLabel r; payments := payments r;
     totalPaidAmount := totalPaidAmount r; remainingAmount := remainingAmount r;
     paymentNotes := paymentNotes r; paymentCompletedAt := paymentCompletedAt r |}.
Definition set_pausedAt (v : option Timestamp) (r : t) : t :=
  {| table := table r; owner := owner r; status := status r; startTime := startTime r;
     endTime := endTime r; pausedAt := v; totalPausedTime := totalPausedTime r;
     frames := frames r; kittis := kittis r; items := items r; totalItems := totalItems r;
     totalItemsCost := totalItemsCost r; totalItemsRevenue := totalItemsRevenue r;
     totalItemsProfit := totalItemsProfit r; pricingMethod := pricingMethod r;
     minuteRate := minuteRate r; hourlyRate := hourlyRate r; frameRate := frameRate r;
     kittiRate := kittiRate r; gameCost := gameCost r; totalCost := totalCost r;
     paymentStatus := paymentStatus r; paymentMethod := paymentMethod r;
     paymentMethodLabel := paymentMethodLabel r; payments := payments r;
     totalPaidAmount := totalPaidAmount r; remainingAmount := remainingAmount r;
     paymentNotes := paymentNotes r; paymentCompletedAt := paymentCompletedAt r |}.
Definition set_totalPausedTime (v : Z) (r : t) : t :=
  {| table := table r; owner := owner r; status := status r; startTime := startTime r;
     endTime := endTime r; pausedAt := pausedAt r; totalPausedTime := v; frames := frames r;
     kittis := kittis r; items := items r; totalItems := totalItems r;
     totalItemsCost := totalItemsCost r; totalItemsRevenue := totalItemsRevenue r;
     totalItemsProfit := totalItemsProfit r; pricingMethod := pricingMethod r;
     minuteRate := minuteRate r; hourlyRate := hourlyRate r; frameRate := frameRate r;
     kittiRate := kittiRate r; gameCost := gameCost r; totalCost := totalCost r;
     paymentStatus := paymentStatus r; paymentMethod := paymentMethod r;
     paymentMethodLabel := paymentMethodLabel r; payments := payments r;
     totalPaidAmount := totalPaidAmount r; remainingAmount := remainingAmount r;
     paymentNotes := paymentNotes r; paymentCompletedAt := paymentCompletedAt r |}.
Definition set_frames (v : Z) (r : t) : t :=
  {| table := table r; owner := owner r; status := status r; startTime := startTime r;
     endTime := endTime r; pausedAt := pausedAt r; totalPausedTime := totalPausedTime r;
     frames := v; kittis := kittis r; items := items r; totalItems := totalItems r;
     totalItemsCost := totalItemsCost r; totalItemsRevenue := totalItemsRevenue r;
     totalItemsProfit := totalItemsProfit r; pricingMethod := pricingMethod r;
     minuteRate := minuteRate r; hourlyRate := hourlyRate r; frameRate := frameRate r;
     kittiRate := kittiRate r; gameCost := gameCost r; totalCost := totalCost r;
     paymentStatus := paymentStatus r; paymentMethod := paymentMethod r;
     paymentMethodLabel := paymentMethodLabel r; payments := payments r;
     totalPaidAmount := totalPaidAmount r; remainingAmount := remainingAmount r;
     paymentNotes := paymentNotes r; paymentCompletedAt := paymentCompletedAt r |}.
Definition set_kittis (v : Z) (r : t) : t :=
  {| table := table r; owner := owner r; status := status r; startTime := startTime r;
     endTime := endTime r; pausedAt := pausedAt r; totalPausedTime := totalPausedTime r;
     frames := frames r; kittis := v; items := items r; totalItems := totalItems r;
     totalItemsCost := totalItemsCost r; totalItemsRevenue := totalItemsRevenue r;
     totalItemsProfit := totalItemsProfit r; pricingMethod := pricingMethod r;
     minuteRate := minuteRate r; hourlyRate := hourlyRate r; frameRate := frameRate r;
     kittiRate := kittiRate r; gameCost := gameCost r; totalCost := totalCost r;
     paymentStatus := paymentStatus r; paymentMethod := paymentMethod r;
     paymentMethodLabel := paymentMethodLabel r; payments := payments r;
     totalPaidAmount := totalPaidAmount r; remainingAmount := remainingAmount r;
     paymentNotes := paymentNotes r; paymentCompletedAt := paymentCompletedAt r |}.
Definition set_items (v : list SessionItem.t) (r : t) : t :=
  {| table := table r; owner := owner r; status := status r; startTime := startTime r;
     endTime := endTime r; pausedAt := pausedAt r; totalPausedTime := totalPausedTime r;
     frames := frames r; kittis := kittis r; items := v; totalItems := totalItems r;
     totalItemsCost := totalItemsCost r; totalItemsRevenue := totalItemsRevenue r;
     totalItemsProfit := totalItemsProfit r; pricingMethod := pricingMethod r;
     minuteRate := minuteRate r; hourlyRate := hourlyRate r; frameRate := frameRate r;
     kittiRate := kittiRate r; gameCost := gameCost r; totalCost := totalCost r;
     paymentStatus := paymentStatus r; paymentMethod := paymentMethod r;
     paymentMethodLabel := paymentMethodLabel r; payments := payments r;
     totalPaidAmount := totalPaidAmount r; remainingAmount := remainingAmount r;
     paymentNotes := paymentNotes r; paymentCompletedAt := paymentCompletedAt r |}.
Definition set_totalItems (v : Z) (r : t) : t :=
  {| table := table r; owner := owner r; status := status r; startTime := startTime r;
     endTime := endTime r; pausedAt := pausedAt r; totalPausedTime := totalPausedTime r;
     frames := frames r; kittis := kittis r; items := items r; totalItems := v;
     totalItemsCost := totalItemsCost r; totalItemsRevenue := totalItemsRevenue r;
     totalItemsProfit := totalItemsProfit r; pricingMethod := pricingMethod r;
     minuteRate := minuteRate r; hourlyRate := hourlyRate r; frameRate := frameRate r;
     kittiRate := kittiRate r; gameCost := gameCost r; totalCost := totalCost r;
     paymentStatus := paymentStatus r; paymentMethod := paymentMethod r;
     paymentMethodLabel := paymentMethodLabel r; payments := payments r;
     totalPaidAmount := totalPaidAmount r; remainingAmount := remainingAmount r;
     paymentNotes := paymentNotes r; paymentCompletedAt := paymentCompletedAt r |}.
Definition set_totalItemsCost (v : Q) (r : t) : t :=
  {| table := table r; owner := owner r; status := status r; startTime := startTime r;
     endTime := endTime r; pausedAt := pausedAt r; totalPausedTime := totalPausedTime r;
     frames := frames r; kittis := kittis r; items := items r; totalItems := totalItems r;
     totalItemsCost := v; totalItemsRevenue := totalItemsRevenue r;
     totalItemsProfit := totalItemsProfit r; pricingMethod := pricingMethod r;
     minuteRate := minuteRate r; hourlyRate := hourlyRate r; frameRate := frameRate r;
     kittiRate := kittiRate r; gameCost := gameCost r; totalCost := totalCost r;
     paymentStatus := paymentStatus r; paymentMethod := paymentMethod r;
     paymentMethodLabel := paymentMethodLabel r; payments := payments r;
     totalPaidAmount := totalPaidAmount r; remainingAmount := remainingAmount r;
     paymentNotes := paymentNotes r; paymentCompletedAt := paymentCompletedAt r |}.
Definition set_totalItemsRevenue (v : Q) (r : t) : t :=
  {| table := table r; owner := owner r; status := status r; startTime := startTime r;
     endTime := endTime r; pausedAt := pausedAt r; totalPausedTime := totalPausedTime r;
     frames := frames r; kittis := kittis r; items := items r; totalItems := totalItems r;
     totalItemsCost := totalItemsCost r; totalItemsRevenue := v;
     totalItemsProfit := totalItemsProfit r; pricingMethod := pricingMethod r;
     minuteRate := minuteRate r; hourlyRate := hourlyRate r; frameRate := frameRate r;
     kittiRate := kittiRate r; gameCost := gameCost r; totalCost := totalCost r;
     paymentStatus := paymentStatus r; paymentMethod := paymentMethod r;
     paymentMethodLabel := paymentMethodLabel r; payments := payments r;
     totalPaidAmount := totalPaidAmount r; remainingAmount := remainingAmount r;
     paymentNotes := paymentNotes r; paymentCompletedAt := paymentCompletedAt r |}.
Definition set_totalItemsProfit (v : Q) (r : t) : t :=
  {| table := table r; owner := owner r; status := status r; startTime := startTime r;
     endTime := endTime r; pausedAt := pausedAt r; totalPausedTime := totalPausedTime r;
     frames := frames r; kittis := kittis r; items := items r; totalItems := totalItems r;
     totalItemsCost := totalItemsCost r; totalItemsRevenue := totalItemsRevenue r;
     totalItemsProfit := v; pricingMethod := pricingMethod r; minuteRate := minuteRate r;
     hourlyRate := hourlyRate r; frameRate := frameRate r; kittiRate := kittiRate r;
     gameCost := gameCost r; totalCost := totalCost r; paymentStatus := paymentStatus r;
     paymentMethod := paymentMethod r; paymentMethodLabel := paymentMethodLabel r;
     payments := payments r; totalPaidAmount := totalPaidAmount r;
     remainingAmount := remainingAmount r; paymentNotes := paymentNotes r;
     paymentCompletedAt := paymentCompletedAt r |}.
Definition set_gameCost (v : Q) (r : t) : t :=
  {| table := table r; owner := owner r; status := status r; startTime := startTime r;
     endTime := endTime r; pausedAt := pausedAt r; totalPausedTime := totalPausedTime r;
     frames := frames r; kittis := kittis r; items := items r; totalItems := totalItems r;
     totalItemsCost := totalItemsCost r; totalItemsRevenue := totalItemsRevenue r;
     totalItemsProfit := totalItemsProfit r; pricingMethod := pricingMethod r;
     minuteRate := minuteRate r; hourlyRate := hourlyRate r; frameRate := frameRate r;
     kittiRate := kittiRate r; gameCost := v; totalCost := totalCost r;
     paymentStatus := paymentStatus r; paymentMethod := paymentMethod r;
     paymentMethodLabel := paymentMethodLabel r; payments := payments r;
     totalPaidAmount := totalPaidAmount r; remainingAmount := remainingAmount r;
     paymentNotes := paymentNotes r; paymentCompletedAt := paymentCompletedAt r |}.
Definition set_totalCost (v : Q) (r : t) : t :=
  {| table := table r; owner := owner r; status := status r; startTime := startTime r;
     endTime := endTime r; pausedAt := pausedAt r; totalPausedTime := totalPausedTime r;
     frames := frames r; kittis := kittis r; items := items r; totalItems := totalItems r;
     totalItemsCost := totalItemsCost r; totalItemsRevenue := totalItemsRevenue r;
     totalItemsProfit := totalItemsProfit r; pricingMethod := pricingMethod r;
     minuteRate := minuteRate r; hourlyRate := hourlyRate r; frameRate := frameRate r;
     kittiRate := kittiRate r; gameCost := gameCost r; totalCost := v;
     paymentStatus := paymentStatus r; paymentMethod := paymentMethod r;
     paymentMethodLabel := paymentMethodLabel r; payments := payments r;
     totalPaidAmount := totalPaidAmount r; remainingAmount := remainingAmount r;
     paymentNotes := paymentNotes r; paymentCompletedAt := paymentCompletedAt r |}.
Definition set_paymentStatus (v : PaymentStatus) (r : t) : t :=
  {| table := table r; owner := owner r; status := status r; startTime := startTime r;
     endTime := endTime r; pausedAt := pausedAt r; totalPausedTime := totalPausedTime r;
     frames := frames r; kittis := kittis r; items := items r; totalItems := totalItems r;
     totalItemsCost := totalItemsCost r; totalItemsRevenue := totalItemsRevenue r;
     totalItemsProfit := totalItemsProfit r; pricingMethod := pricingMethod r;
     minuteRate := minuteRate r; hourlyRate := hourlyRate r; frameRate := frameRate r;
     kittiRate := kittiRate r; gameCost := gameCost r; totalCost := totalCost r;
     paymentStatus := v; paymentMethod := paymentMethod r;
     paymentMethodLabel := paymentMethodLabel r; payments := payments r;
     totalPaidAmount := totalPaidAmount r; remainingAmount := remainingAmount r;
     paymentNotes := paymentNotes r; paymentCompletedAt := paymentCompletedAt r |}.
Definition set_paymentMethod (v : option string) (r : t) : t :=
  {| table := table r; owner := owner r; status := status r; startTime := startTime r;
     endTime := endTime r; pausedAt := pausedAt r; totalPausedTime := totalPausedTime r;
     frames := frames r; kittis := kittis r; items := items r; totalItems := totalItems r;
     totalItemsCost := totalItemsCost r; totalItemsRevenue := totalItemsRevenue r;
     totalItemsProfit := totalItemsProfit r; pricingMethod := pricingMethod r;
     minuteRate := minuteRate r; hourlyRate := hourlyRate r; frameRate := frameRate r;
     kittiRate := kittiRate r; gameCost := gameCost r; totalCost := totalCost r;
     paymentStatus := paymentStatus r; paymentMethod := v;
     paymentMethodLabel := paymentMethodLabel r; payments := payments r;
     totalPaidAmount := totalPaidAmount r; remainingAmount := remainingAmount r;
     paymentNotes := paymentNotes r; paymentCompletedAt := paymentCompletedAt r |}.
Definition set_paymentMethodLabel (v : option string) (r : t) : t :=
  {| table := table r; owner := owner r; status := status r; startTime := startTime r;
     endTime := endTime r; pausedAt := pausedAt r; totalPausedTime := totalPausedTime r;
     frames := frames r; kittis := kittis r; items := items r; totalItems := totalItems r;
     totalItemsCost := totalItemsCost r; totalItemsRevenue := totalItemsRevenue r;
     totalItemsProfit := totalItemsProfit r; pricingMethod := pricingMethod r;
     minuteRate := minuteRate r; hourlyRate := hourlyRate r; frameRate := frameRate r;
     kittiRate := kittiRate r; gameCost := gameCost r; totalCost := totalCost r;
     paymentStatus := paymentStatus r; paymentMethod := paymentMethod r;
     paymentMethodLabel := v; payments := payments r; totalPaidAmount := totalPaidAmount r;
     remainingAmount := remainingAmount r; paymentNotes := paymentNotes r;
     paymentCompletedAt := paymentCompletedAt r |}.
Definition set_payments (v : list Payment.t) (r : t) : t :=
  {| table := table r; owner := owner r; status := status r; startTime := startTime r;
     endTime := endTime r; pausedAt := pausedAt r; totalPausedTime := totalPausedTime r;
     frames := frames r; kittis := kittis r; items := items r; totalItems := totalItems r;
     totalItemsCost := totalItemsCost r; totalItemsRevenue := totalItemsRevenue r;
     totalItemsProfit := totalItemsProfit r; pricingMethod := pricingMethod r;
     minuteRate := minuteRate r; hourlyRate := hourlyRate r; frameRate := frameRate r;
     kittiRate := kittiRate r; gameCost := gameCost r; totalCost := totalCost r;
     paymentStatus := paymentStatus r; paymentMethod := paymentMethod r;
     paymentMethodLabel := paymentMethodLabel r; payments := v;
     totalPaidAmount := totalPaidAmount r; remainingAmount := remainingAmount r;
     paymentNotes := paymentNotes r; paymentCompletedAt := paymentCompletedAt r |}.
Definition set_totalPaidAmount (v : Q) (r : t) : t :=
  {| table := table r; owner := owner r; status := status r; startTime := startTime r;
     endTime := endTime r; pausedAt := pausedAt r; totalPausedTime := totalPausedTime r;
     frames := frames r; kittis := kittis r; items := items r; totalItems := totalItems r;
     totalItemsCost := totalItemsCost r; totalItemsRevenue := totalItemsRevenue r;
     totalItemsProfit := totalItemsProfit r; pricingMethod := pricingMethod r;
     minuteRate := minuteRate r; hourlyRate := hourlyRate r; frameRate := frameRate r;
     kittiRate := kittiRate r; gameCost := gameCost r; totalCost := totalCost r;
     paymentStatus := paymentStatus r; paymentMethod := paymentMethod r;
     paymentMethodLabel := paymentMethodLabel r; payments := payments r; totalPaidAmount := v;
     remainingAmount := remainingAmount r; paymentNotes := paymentNotes r;
     paymentCompletedAt := paymentCompletedAt r |}.
Definition set_remainingAmount (v : Q) (r : t) : t :=
  {| table := table r; owner := owner r; status := status r; startTime := startTime r;
     endTime := endTime r; pausedAt := pausedAt r; totalPausedTime := totalPausedTime r;
     frames := frames r; kittis := kittis r; items := items r; totalItems := totalItems r;
     totalItemsCost := totalItemsCost r; totalItemsRevenue := totalItemsRevenue r;
     totalItemsProfit := totalItemsProfit r; pricingMethod := pricingMethod r;
     minuteRate := minuteRate r; hourlyRate := hourlyRate r; frameRate := frameRate r;
     kittiRate := kittiRate r; gameCost := gameCost r; totalCost := totalCost r;
     paymentStatus := paymentStatus r; paymentMethod := paymentMethod r;
     paymentMethodLabel := paymentMethodLabel r; payments := payments r;
     totalPaidAmount := totalPaidAmount r; remainingAmount := v;
     paymentNotes := paymentNotes r; paymentCompletedAt := paymentCompletedAt r |}.
Definition set_paymentNotes (v : string) (r : t) : t :=
  {| table := table r; owner := owner r; status := status r; startTime := startTime r;
     endTime := endTime r; pausedAt := pausedAt r; totalPausedTime := totalPausedTime r;
     frames := frames r; kittis := kittis r; items := items r; totalItems := totalItems r;
     totalItemsCost := totalItemsCost r; totalItemsRevenue := totalItemsRevenue r;
     totalItemsProfit := totalItemsProfit r; pricingMethod := pricingMethod r;
     minuteRate := minuteRate r; hourlyRate := hourlyRate r; frameRate := frameRate r;
     kittiRate := kittiRate r; gameCost := gameCost r; totalCost := totalCost r;
     paymentStatus := paymentStatus r; paymentMethod := paymentMethod r;
     paymentMethodLabel := paymentMethodLabel r; payments := payments r;
     totalPaidAmount := totalPaidAmount r; remainingAmount := remainingAmount r;
     paymentNotes := v; paymentCompletedAt := paymentCompletedAt r |}.
Definition set_paymentCompletedAt (v : option Timestamp) (r : t) : t :=
  {| table := table r; owner := owner r; status := status r; startTime := startTime r;
     endTime := endTime r; pausedAt := pausedAt r; totalPausedTime := totalPausedTime r;
     frames := frames r; kittis := kittis r; items := items r; totalItems := totalItems r;
     totalItemsCost := totalItemsCost r; totalItemsRevenue := totalItemsRevenue r;
     totalItemsProfit := totalItemsProfit r; pricingMethod := pricingMethod r;
     minuteRate := minuteRate r; hourlyRate := hourlyRate r; frameRate := frameRate r;
     kittiRate := kittiRate r; gameCost := gameCost r; totalCost := totalCost r;
     paymentStatus := paymentStatus r; paymentMethod := paymentMethod r;
     paymentMethodLabel := paymentMethodLabel r; payments := payments r;
     totalPaidAmount := totalPaidAmount r; remainingAmount := remainingAmount r;
     paymentNotes := paymentNotes r; paymentCompletedAt := v |}.

(** [status in ['active', 'paused']] *)
Definition isOpen (s : t) : bool :=
  bool_decide (status s = active) || bool_decide (status s = paused).

(** [sessionSchema.methods.getDurationInMinutes].  [Math.floor] of a
    quotient of integers is [Z.div]; [endTime?.getTime() || Date.now()]
    falls back to the clock when the end time is absent or is the
    falsy timestamp 0. *)
Definition getDurationInMinutes (now : Timestamp) (s : t) : Z :=
  let now' :=
    if bool_decide (status s = active) then now
    else match endTime s with
         | Some e => if e =? 0 then now else e
         | None => now
         end in
  let effectiveStartTime := startTime s in
  let totalPaused := totalPausedTime s in
  let currentPauseDuration :=
    if bool_decide (status s = paused) then
      match pausedAt s with
      | Some p => now - p
      | None => 0
      end
    else 0 in
  (now' - effectiveStartTime - totalPaused - currentPauseDuration) / (1000 * 60).

(** [sessionSchema.methods.calculateGameCost] *)
Definition calculateGameCost (now : Timestamp) (s : t) : Q :=
  match pricingMethod s with
  | per_minute =>
      let minutes := getDurationInMinutes now s in
      match minuteRate s with
      | Some rate => (rate * inject_Z minutes)%Q
      | None => ((hourlyRate s / 60) * inject_Z minutes)%Q
      end
  | frame_kitti =>
      (inject_Z (frames s) * frameRate s + inject_Z (kittis s) * kittiRate s)%Q
  end.

(** [sessionSchema.methods.calculateCurrentCost] *)
Definition calculateCurrentCost (now : Timestamp) (s : t) : Q :=
  let gameCost := calculateGameCost now s in
  (gameCost + totalItemsRevenue s)%Q.

(** [sessionSchema.methods.calculateItemsTotals]; each [reduce] is a
    left fold from 0. *)
Definition calculateItemsTotals (s : t) : t :=
  let s1 := set_totalItems
              (fold_left (fun sum item => sum + SessionItem.quantity item) (items s) 0) s in
  let s2 := set_totalItemsCost
              (fold_left (fun sum item => (sum + SessionItem.totalCost item)%Q) (items s1) 0%Q)
              s1 in
  let s3 := set_totalItemsRevenue
              (fold_left (fun sum item => (sum + SessionItem.totalRevenue item)%Q)
                 (items s2) 0%Q) s2 in
  set_totalItemsProfit (totalItemsRevenue s3 - totalItemsCost s3)%Q s3.

(** [Math.max(0, x)] on money. *)
Definition max0 (x : Q) : Q := Qmax 0 x.

(** [sessionSchema.methods.updatePaymentAmounts] *)
Definition updatePaymentAmounts (now : Timestamp) (s : t) : t :=
  let s1 := set_totalPaidAmount
              (fold_left (fun sum payment => (sum + Payment.amount payment)%Q)
                 (payments s) 0%Q) s in
  let s2 := set_remainingAmount (max0 (totalCost s1 - totalPaidAmount s1)) s1 in
  if Qeq_bool (totalPaidAmount s2) 0 then
    set_paymentStatus pending s2
  else if Qle_bool (totalCost s2) (totalPaidAmount s2) then
    let s3 := set_paymentStatus paid s2 in
    match paymentCompletedAt s3 with
    | None => set_paymentCompletedAt (Some now) s3
    | Some _ => s3
    end
  else
    set_paymentStatus credit s2.

(** [sessionSchema.methods.updateTotalCost] (the in-memory effect;
    the caller persists the result). *)
Definition updateTotalCost (now : Timestamp) (s : t) : t :=
  let s1 := calculateItemsTotals s in
  let s2 := set_gameCost (calculateGameCost now s1) s1 in
  let s3 := set_totalCost (gameCost s2 + totalItemsRevenue s2)%Q s2 in
  updatePaymentAmounts now s3.

(** The [validMethods] table of [recordPayment]. *)
Definition validMethods (method : string) : option string :=
  if String.eqb method "esewa" then Some "eSewa"
  else if String.eqb method "online_banking" then Some "Online Banking"
  else if String.eqb method "cash" then Some "Cash"
  else None.

(** [sessionSchema.methods.recordPayment]; [None] is the thrown
    'Invalid payment method'. *)
Definition recordPayment (now : Timestamp) (paymentData : PaymentData) (s : t)
  : option t :=
  match validMethods (pd_method paymentData) with
  | None => None
  | Some label =>
      let s1 := set_payments
                  (payments s ++
                     [ {| Payment.method := pd_method paymentData;
                          Payment.methodLabel := label;
                          Payment.amount := pd_amount paymentData;
                          Payment.paidAt := now;
                          Payment.transactionId := pd_transactionId paymentData;
                          Payment.notes := pd_notes paymentData |} ]) s in
      let s2 :=
        if negb (bool_decide (is_Some (paymentMethod s1)))
           || (Z.of_nat (length (payments s1)) =? 1)
        then set_paymentMethodLabel (Some label)
               (set_paymentMethod (Some (pd_method paymentData)) s1)
        else s1 in
      Some (updatePaymentAmounts now s2)
  end.

(** [sessionSchema.methods.markAsPaid] *)
Definition markAsPaid (now : Timestamp) (method transactionId notes : string) (s : t)
  : option t :=
  recordPayment now
    {| pd_method := method;
       pd_amount := (totalCost s - totalPaidAmount s)%Q;
       pd_transactionId := transactionId;
       pd_notes := notes |} s.

(** [sessionSchema.methods.markAsCredit]; an empty note is falsy and is
    replaced by the default text. *)
Definition markAsCredit (notes : string) (s : t) : t :=
  let s1 := set_paymentStatus credit s in
  set_paymentNotes
    (if String.eqb notes "" then "Payment credited - to be collected later" else notes) s1.

(** [sessionSchema.methods.addItem] *)
Definition addItem (now : Timestamp) (itemData : ItemData) (s : t) : t :=
  let totalCost := (id_costPrice itemData * inject_Z (id_quantity itemData))%Q in
  let totalRevenue := (id_sellingPrice itemData * inject_Z (id_quantity itemData))%Q in
  let profit := (totalRevenue - totalCost)%Q in
  let s1 := set_items
              (items s ++
                 [ {| SessionItem._id := id_itemId itemData;
                      SessionItem.product := id_product itemData;
                      SessionItem.productName := id_productName itemData;
                      SessionItem.quantity := id_quantity itemData;
                      SessionItem.costPrice := id_costPrice itemData;
                      SessionItem.sellingPrice := id_sellingPrice itemData;
                      SessionItem.totalCost := totalCost;
                      SessionItem.totalRevenue := totalRevenue;
                      SessionItem.profit := profit;
                      SessionItem.addedAt := now |} ]) s in
  let s2 := calculateItemsTotals s1 in
  let s3 := set_totalCost (calculateGameCost now s2 + totalItemsRevenue s2)%Q s2 in
  updatePaymentAmounts now s3.

(** [sessionSchema.methods.removeItem] *)
Definition removeItem (now : Timestamp) (itemId : ObjectId) (s : t) : t :=
  let s1 := set_items
              (List.filter (fun item => negb (Pos.eqb (SessionItem._id item) itemId))
                 (items s)) s in
  let s2 := calculateItemsTotals s1 in
  let s3 := set_totalCost (calculateGameCost now s2 + totalItemsRevenue s2)%Q s2 in
  updatePaymentAmounts now s3.

End Session.

(** [sessionSchema.statics.getActiveSession]: [findOne] over the
    collection for a session of the table whose status is active or
    paused. *)
Definition getActiveSession (tableId : ObjectId) (coll : gmap ObjectId Session.t)
  : option (ObjectId * Session.t) :=
  snd <$> list_find
            (fun kv : ObjectId * Session.t =>
               Session.table kv.2 = tableId ∧ Session.isOpen kv.2 = true)
            (map_to_list coll).

(** ** The document store and HTTP responses *)
Record DB := {
  tables : gmap ObjectId Table.t;
  sessions : gmap ObjectId Session.t;
  products : gmap ObjectId Product.t
}.

Definition set_tables (v : gmap ObjectId Table.t) (db : DB) : DB :=
  {| tables := v; sessions := sessions db; products := products db |}.
Definition set_sessions (v : gmap ObjectId Session.t) (db : DB) : DB :=
  {| tables := tables db; sessions := v; products := products db |}.
Definition set_products (v : gmap ObjectId Product.t) (db : DB) : DB :=
  {| tables := tables db; sessions := sessions db; products := v |}.

(** The JSON body of a response, with the HTTP status. *)
Record Response := {
  statusCode : Z;
  success : bool;
  message : string;
  requiresPaymentConfirmation : bool;
  sessionCost : option Q
}.

Definition ok (code : Z) (msg : string) : Response :=
  {| statusCode := code; success := true; message := msg;
     requiresPaymentConfirmation := false; sessionCost := None |}.

Definition fail (code : Z) (msg : string) : Response :=
  {| statusCode := code; success := false; message := msg;
     requiresPaymentConfirmation := false; sessionCost := None |}.

(** ** server.js: class SessionController *)
Module SessionController.

(** The [sessionData] object of [startSession]: the pricing snapshot
    and the initial payment fields.  Rate fields the source leaves
    undefined for the table's pricing method are never read for that
    method; the embedding stores 0 there. *)
Definition sessionData (user : ObjectId) (now : Timestamp) (tableId : ObjectId)
    (table : Table.t) : Session.t :=
  {| Session.table := tableId;
     Session.owner := user;
     Session.status := Session.active;
     Session.startTime := now;
     Session.endTime := None;
     Session.pausedAt := None;
     Session.totalPausedTime := 0;
     Session.frames := 0;
     Session.kittis := 0;
     Session.items := [];
     Session.totalItems := 0;
     Session.totalItemsCost := 0%Q;
     Session.totalItemsRevenue := 0%Q;
     Session.totalItemsProfit := 0%Q;
     Session.pricingMethod := Table.pricingMethod table;
     Session.minuteRate :=
       match Table.pricingMethod table with
       | per_minute => Some (Table.hourlyRate table)
       | frame_kitti => None
       end;
     Session.hourlyRate := 0%Q;
     Session.frameRate :=
       match Table.pricingMethod table with
       | per_minute => 0%Q
       | frame_kitti => Table.frameRate table
       end;
     Session.kittiRate :=
       match Table.pricingMethod table with
       | per_minute => 0%Q
       | frame_kitti => Table.kittiRate table
       end;
     Session.gameCost := 0%Q;
     Session.totalCost := 0%Q;
     Session.paymentStatus := Session.pending;
     Session.paymentMethod := None;
     Session.paymentMethodLabel := None;
     Session.payments := [];
     Session.totalPaidAmount := 0%Q;
     Session.remainingAmount := 0%Q;
     Session.paymentNotes := "";
     Session.paymentCompletedAt := None |}.

(** [startSession].  [newId] is the [_id] the driver generates for the
    new document; the store rejects a duplicate [_id], which the
    handler reports as a server error. *)
Definition startSession (db : DB) (user : ObjectId) (now : Timestamp)
    (tableId newId : ObjectId) : Response * DB :=
  match tables db !! tableId with
  | None => (fail 404 "Table not found", db)
  | Some table =>
    if negb (Pos.eqb (Table.owner table) user) then
      (fail 403 "Access denied. You can only manage your own tables.", db)
    else if negb (bool_decide (Table.status table = Table.active)) then
      (fail 400 "Table is not available for booking", db)
    else if Table.isOccupied table then
      (fail 400 "Table is already occupied", db)
    else
      match getActiveSession tableId (sessions db) with
      | Some _ => (fail 400 "Table already has an active session", db)
      | None =>
        let session := sessionData user now tableId table in
        match sessions db !! newId with
        | Some _ => (fail 500 "Server error during session start", db)
        | None =>
          let db1 := set_sessions (<[newId := session]> (sessions db)) db in
          let table' :=
            Table.set_currentBooking (Some newId) (Table.set_isOccupied true table) in
          let db2 := set_tables (<[tableId := table']> (tables db1)) db1 in
          (ok 201 "Session started successfully!", db2)
        end
      end
  end.

(** [addItemToSession].  [itemId] is the [_id] Mongoose gives the new
    item sub-document.  The quantity reaches the handler as an integer,
    so [parseInt] is the identity; the insufficient-stock message is
    shortened (the source interpolates the product name and counts). *)
Definition addItemToSession (db : DB) (user : ObjectId) (now : Timestamp)
    (sessionId productId : ObjectId) (quantity : Z) (itemId : ObjectId)
  : Response * DB :=
  if (quantity =? 0) || (quantity <? 1) then
    (fail 400 "Product ID and valid quantity are required", db)
  else
    match sessions db !! sessionId with
    | None => (fail 404 "Session not found", db)
    | Some session =>
      if negb (Pos.eqb (Session.owner session) user) then
        (fail 403 "Access denied. You can only add items to your own sessions.", db)
      else if negb (Session.isOpen session) then
        (fail 400 "Can only add items to active or paused sessions", db)
      else
        match products db !! productId with
        | None => (fail 404 "Product not found", db)
        | Some product =>
          if negb (Pos.eqb (Product.owner product) user) then
            (fail 403 "Access denied for this product", db)
          else if Product.currentStock product <? quantity then
            (fail 400 "Insufficient stock", db)
          else
            let session' :=
              Session.addItem now
                {| id_itemId := itemId;
                   id_product := productId;
                   id_productName := Product.name product;
                   id_quantity := quantity;
                   id_costPrice := Product.costPrice product;
                   id_sellingPrice := Product.sellingPrice product |} session in
            let db1 := set_sessions (<[sessionId := session']> (sessions db)) db in
            let product' := Product.updateStock quantity "subtract" product in
            let db2 := set_products (<[productId := product']> (products db1)) db1 in
            (ok 200 "Item added to session successfully!", db2)
        end
    end.

(** [removeItemFromSession] *)
Definition removeItemFromSession (db : DB) (user : ObjectId) (now : Timestamp)
    (sessionId itemId : ObjectId) : Response * DB :=
  match sessions db !! sessionId with
  | None => (fail 404 "Session not found", db)
  | Some session =>
    if negb (Pos.eqb (Session.owner session) user) then
      (fail 403 "Access denied. You can only modify your own sessions.", db)
    else if negb (Session.isOpen session) then
      (fail 400 "Can only remove items from active or paused sessions", db)
    else
      match List.find (fun item => Pos.eqb (SessionItem._id item) itemId)
              (Session.items session) with
      | None => (fail 404 "Item not found in this session", db)
      | Some item =>
        let db1 :=
          match products db !! SessionItem.product item with
          | Some product =>
            set_products
              (<[SessionItem.product item :=
                   Product.updateStock (SessionItem.quantity item) "add" product]>
                 (products db)) db
          | None => db
          end in
        let session' := Session.removeItem now itemId session in
        let db2 := set_sessions (<[sessionId := session']> (sessions db1)) db1 in
        (ok 200 "Item removed from session successfully!", db2)
      end
  end.

(** The [switch (action)] of [updateSession]. *)
Definition applyAction (now : Timestamp) (action : string)
    (frames kittis : option Z) (session : Session.t) : Session.t :=
  if String.eqb action "pause" then
    if bool_decide (Session.status session = Session.active) then
      Session.set_pausedAt (Some now) (Session.set_status Session.paused session)
    else session
  else if String.eqb action "resume" then
    if bool_decide (Session.status session = Session.paused) then
      let s1 := Session.set_status Session.active session in
      match Session.pausedAt s1 with
      | Some p =>
        Session.set_pausedAt None
          (Session.set_totalPausedTime (Session.totalPausedTime s1 + (now - p)) s1)
      | None => s1
      end
    else session
  else if String.eqb action "update_frames_kittis" then
    if bool_decide (Session.pricingMethod session = frame_kitti) then
      let s1 := match frames with
                | Some f => Session.set_frames (Z.max 0 f) session
                | None => session
                end in
      match kittis with
      | Some k => Session.set_kittis (Z.max 0 k) s1
      | None => s1
      end
    else session
  else if String.eqb action "add_notes" then session
  else
    let s1 := match frames with
              | Some f => Session.set_frames (Z.max 0 f) session
              | None => session
              end in
    match kittis with
    | Some k => Session.set_kittis (Z.max 0 k) s1
    | None => s1
    end.

(** [updateSession] *)
Definition updateSession (db : DB) (user : ObjectId) (now : Timestamp)
    (sessionId : ObjectId) (action : string) (frames kittis : option Z)
  : Response * DB :=
  match sessions db !! sessionId with
  | None => (fail 404 "Session not found", db)
  | Some session =>
    if negb (Pos.eqb (Session.owner session) user) then
      (fail 403 "Access denied. You can only update your own sessions.", db)
    else if negb (bool_decide (Session.status session = Session.active))
            && negb (bool_decide (Session.status session = Session.paused))
            && negb (String.eqb action "add_notes") then
      (fail 400 "Can only update active or paused sessions", db)
    else
      let session1 := applyAction now action frames kittis session in
      let session2 := Session.updateTotalCost now session1 in
      (ok 200 "Session updated successfully",
       set_sessions (<[sessionId := session2]> (sessions db)) db)
  end.

(** [confirmPayment].  [updateTotalCost] saves before the payment is
    processed, so a throw from [markAsPaid] would leave the recomputed
    totals stored.  The first message is written without the quote
    marks the source puts around the two status words. *)
Definition confirmPayment (db : DB) (user : ObjectId) (now : Timestamp)
    (sessionId : ObjectId) (paymentStatus paymentMethod transactionId paymentNotes : string)
  : Response * DB :=
  if negb (String.eqb paymentStatus "paid" || String.eqb paymentStatus "credit") then
    (fail 400 "Payment status must be either paid or credit", db)
  else if String.eqb paymentStatus "paid"
          && negb (String.eqb paymentMethod "esewa"
                   || String.eqb paymentMethod "online_banking"
                   || String.eqb paymentMethod "cash") then
    (fail 400 "Valid payment method is required when marking as paid", db)
  else
    match sessions db !! sessionId with
    | None => (fail 404 "Session not found", db)
    | Some session =>
      if negb (Pos.eqb (Session.owner session) user) then
        (fail 403 "Access denied. You can only confirm payment for your own sessions.", db)
      else if negb (Session.isOpen session) then
        (fail 400 "Can only confirm payment for active or paused sessions", db)
      else
        let session1 := Session.updateTotalCost now session in
        let db1 := set_sessions (<[sessionId := session1]> (sessions db)) db in
        if String.eqb paymentStatus "paid" then
          match Session.markAsPaid now paymentMethod transactionId paymentNotes session1 with
          | None => (fail 500 "Server error during payment confirmation", db1)
          | Some session2 =>
            (ok 200 "Payment confirmed successfully!",
             set_sessions (<[sessionId := session2]> (sessions db1)) db1)
          end
        else
          let session2 :=
            Session.markAsCredit
              (if String.eqb paymentNotes "" then "Payment credited - to be collected later"
               else paymentNotes) session1 in
          (ok 200 "Payment credited successfully!",
           set_sessions (<[sessionId := session2]> (sessions db1)) db1)
    end.

(** [endSession] *)
Definition endSession (db : DB) (user : ObjectId) (now : Timestamp)
    (sessionId : ObjectId) : Response * DB :=
  match sessions db !! sessionId with
  | None => (fail 404 "Session not found", db)
  | Some session =>
    if negb (Pos.eqb (Session.owner session) user) then
      (fail 403 "Access denied. You can only end your own sessions.", db)
    else if negb (Session.isOpen session) then
      (fail 400 "Session is not active or paused", db)
    else if bool_decide (Session.paymentStatus session = Session.pending) then
      ({| statusCode := 400; success := false;
          message := "Payment confirmation required before ending session";
          requiresPaymentConfirmation := true;
          sessionCost := Some (Session.calculateCurrentCost now session) |}, db)
    else
      let s1 := Session.set_endTime (Some now)
                  (Session.set_status Session.completed session) in
      let s2 := match Session.pausedAt s1 with
                | Some p =>
                  Session.set_pausedAt None
                    (Session.set_totalPausedTime (Session.totalPausedTime s1 + (now - p)) s1)
                | None => s1
                end in
      let s3 := Session.updateTotalCost now s2 in
      let db1 := set_sessions (<[sessionId := s3]> (sessions db)) db in
      let db2 :=
        match tables db1 !! Session.table s3 with
        | Some table =>
          set_tables
            (<[Session.table s3 :=
                 Table.set_currentBooking None (Table.set_isOccupied false table)]>
               (tables db1)) db1
        | None => db1
        end in
      (ok 200 "Session ended successfully", db2)
  end.

(** The stock-restoring loop of [cancelSession]: each iteration loads
    the product afresh and saves it. *)
Definition restoreStock (items : list SessionItem.t) (coll : gmap ObjectId Product.t)
  : gmap ObjectId Product.t :=
  fold_left
    (fun acc item =>
       match acc !! SessionItem.product item with
       | Some product =>
         <[SessionItem.product item :=
             Product.updateStock (SessionItem.quantity item) "add" product]> acc
       | None => acc
       end)
    items coll.

(** [cancelSession] *)
Definition cancelSession (db : DB) (user : ObjectId) (now : Timestamp)
    (sessionId : ObjectId) : Response * DB :=
  match sessions db !! sessionId with
  | None => (fail 404 "Session not found", db)
  | Some session =>
    if negb (Pos.eqb (Session.owner session) user) then
      (fail 403 "Access denied. You can only cancel your own sessions.", db)
    else if bool_decide (Session.status session = Session.completed) then
      (fail 400 "Cannot cancel completed sessions", db)
    else
      let db1 := set_products (restoreStock (Session.items session) (products db)) db in
      let s1 := Session.set_endTime (Some now)
                  (Session.set_status Session.cancelled session) in
      let s2 := Session.set_paymentStatus Session.pending s1 in
      let s3 := Session.set_paymentMethod None s2 in
      let s4 := Session.set_paymentMethodLabel None s3 in
      let s5 := Session.set_totalPaidAmount 0%Q s4 in
      let s6 := Session.set_remainingAmount 0%Q s5 in
      let s7 := Session.set_payments [] s6 in
      let s8 := Session.set_paymentNotes "Session cancelled - payment reset" s7 in
      let db2 := set_sessions (<[sessionId := s8]> (sessions db1)) db1 in
      let db3 :=
        match tables db2 !! Session.table s8 with
        | Some table =>
          set_tables
            (<[Session.table s8 :=
                 Table.set_currentBooking None (Table.set_isOccupied false table)]>
               (tables db2)) db2
        | None => db2
        end in
      (ok 200 "Session cancelled successfully", db3)
  end.

(** [pauseSession] *)
Definition pauseSession (db : DB) (user : ObjectId) (now : Timestamp)
    (sessionId : ObjectId) : Response * DB :=
  match sessions db !! sessionId with
  | None => (fail 404 "Session not found", db)
  | Some session =>
    if negb (Pos.eqb (Session.owner session) user) then
      (fail 403 "Access denied. You can only pause your own sessions.", db)
    else if negb (bool_decide (Session.status session = Session.active)) then
      (fail 400 "Session is not active", db)
    else
      let s1 := Session.set_pausedAt (Some now)
                  (Session.set_status Session.paused session) in
      (ok 200 "Session paused successfully",
       set_sessions (<[sessionId := s1]> (sessions db)) db)
  end.

(** [resumeSession] *)
Definition resumeSession (db : DB) (user : ObjectId) (now : Timestamp)
    (sessionId : ObjectId) : Response * DB :=
  match sessions db !! sessionId with
  | None => (fail 404 "Session not found", db)
  | Some session =>
    if negb (Pos.eqb (Session.owner session) user) then
      (fail 403 "Access denied. You can only resume your own sessions.", db)
    else if negb (bool_decide (Session.status session = Session.paused)) then
      (fail 400 "Session is not paused", db)
    else
      let s1 := Session.set_status Session.active session in
      let s2 := match Session.pausedAt s1 with
                | Some p =>
                  Session.set_pausedAt None
                    (Session.set_totalPausedTime (Session.totalPausedTime s1 + (now - p)) s1)
                | None => s1
                end in
      (ok 200 "Session resumed successfully",
       set_sessions (<[sessionId := s2]> (sessions db)) db)
  end.

End SessionController.

(** ** controllers/inventoryController.js *)
Module InventoryController.

(** [updateStock]: the stock-adjustment endpoint. *)
Definition updateStock (db : DB) (user : ObjectId) (productId : ObjectId)
    (quantity : Z) (operation : string) : Response * DB :=
  match products db !! productId with
  | None => (fail 404 "Product not found", db)
  | Some product =>
    if negb (Pos.eqb (Product.owner product) user) then
      (fail 403 "Access denied. You can only update your own products.", db)
    else if (quantity =? 0) || (quantity <=? 0) then
      (fail 400 "Valid quantity is required", db)
    else
      (ok 200 "Stock updated successfully",
       set_products
         (<[productId := Product.updateStock quantity operation product]> (products db)) db)
  end.

End InventoryController.

(** ** Requests and runs of the API *)
Inductive Request :=
| StartSession (tableId newId : ObjectId)
| AddItem (sessionId productId : ObjectId) (quantity : Z) (itemId : ObjectId)
| RemoveItem (sessionId itemId : ObjectId)
| UpdateSession (sessionId : ObjectId) (action : string) (frames kittis : option Z)
| ConfirmPayment (sessionId : ObjectId)
    (paymentStatus paymentMethod transactionId paymentNotes : string)
| EndSession (sessionId : ObjectId)
| CancelSession (sessionId : ObjectId)
| Pause (sessionId : ObjectId)
| Resume (sessionId : ObjectId)
| UpdateStock (productId : ObjectId) (quantity : Z) (operation : string).

(** One authenticated request, handled at instant [now]. *)
Definition handle (db : DB) (user : ObjectId) (now : Timestamp) (r : Request)
  : Response * DB :=
  match r with
  | StartSession tableId newId => SessionController.startSession db user now tableId newId
  | AddItem sid pid q iid => SessionController.addItemToSession db user now sid pid q iid
  | RemoveItem sid iid => SessionController.removeItemFromSession db user now sid iid
  | UpdateSession sid a f k => SessionController.updateSession db user now sid a f k
  | ConfirmPayment sid ps pm tx pn =>
      SessionController.confirmPayment db user now sid ps pm tx pn
  | EndSession sid => SessionController.endSession db user now sid
  | CancelSession sid => SessionController.cancelSession db user now sid
  | Pause sid => SessionController.pauseSession db user now sid
  | Resume sid => SessionController.resumeSession db user now sid
  | UpdateStock pid q op => InventoryController.updateStock db user pid q op
  end.

(** A run: requests of arbitrary users at arbitrary instants, handled one
    after the other. *)
Definition run (db : DB) (trace : list (ObjectId * Timestamp * Request)) : DB :=
  fold_left (fun acc '(user, now, r) => (handle acc user now r).2) trace db.

(** ** The specification's reading of the elapsed-time formula

    [elapsed = (now_or_endTime - startTime) - cumulativePausedTime -
    currentPauseDurationIfPaused], floored to whole minutes. *)
Definition spec_elapsed_minutes (now : Timestamp) (s : Session.t) : Z :=
  let now_or_endTime := match Session.endTime s with Some e => e | None => now end in
  let currentPauseDurationIfPaused :=
    match Session.status s, Session.pausedAt s with
    | Session.paused, Some p => now - p
    | _, _ => 0
    end in
  (now_or_endTime - Session.startTime s - Session.totalPausedTime s
     - currentPauseDurationIfPaused) / 60000.

(** Timing shape of every stored session: an open session has no end
    time, and no end time is the epoch itself. *)
Definition timing_ok (s : Session.t) : Prop :=
  (Session.isOpen s = true → Session.endTime s = None) ∧ Session.endTime s ≠ Some 0.

(** Sum of the payment amounts, as [reduce] computes it. *)
Definition sum_amounts (l : list Payment.t) : Q :=
  fold_left (fun sum payment => (sum + Payment.amount payment)%Q) l 0%Q.



(** Units of product [pid] held by a list of session items. *)
Definition units_of (pid : ObjectId) (items : list SessionItem.t) : Z :=
  fold_right
    (fun item acc => if Pos.eqb (SessionItem.product item) pid
                     then SessionItem.quantity item + acc else acc)
    0 items.

(** Stock ledger invariant: no product has negative stock and no stored
    session item has a negative quantity (the item schema has
    [min: 1]). *)
Definition stock_ok (db : DB) : Prop :=
  (∀ pid p, products db !! pid = Some p → 0 ≤ Product.currentStock p) ∧
  (∀ sid s item, sessions db !! sid = Some s → item ∈ Session.items s →
                 0 ≤ SessionItem.quantity item).

(** At most one open (active or paused) session per table. *)
Definition one_open_session_per_table (db : DB) : Prop :=
  ∀ i j si sj,
    sessions db !! i = Some si → sessions db !! j = Some sj →
    Session.isOpen si = true → Session.isOpen sj = true →
    Session.table si = Session.table sj → i = j.

(** ** models/Table.js: numbering of a venue's tables *)
Module TableNumbering.

(** The [for] loop of [getNextTableNumber] from index [i] on: the first
    position whose table number is not [i + 1] gives [i + 1]; past the
    end it gives the length plus one. *)
Fixpoint scan (i : Z) (numbers : list Z) : Z :=
  match numbers with
  | [] => i + 1
  | n :: rest => if negb (n =? i + 1) then i + 1 else scan (i + 1) rest
  end.

(** [tableSchema.statics.getNextTableNumber], on the venue's table
    numbers as the query returns them (sorted ascending). *)
Definition getNextTableNumber (numbers : list Z) : Z :=
  if Z.of_nat (length numbers) =? 0 then 1 else scan 0 numbers.

End TableNumbering.

(** ** server.js: bulk actions of SessionController *)
Module BulkActions.

(** [Session.find({ _id: { $in: sessionIds }, owner })]: the caller's
    stored sessions among the requested ids, each once. *)
Definition findOwned (db : DB) (user : ObjectId) (sessionIds : list ObjectId)
  : list (ObjectId * Session.t) :=
  List.filter
    (fun kv : ObjectId * Session.t =>
       bool_decide (kv.1 ∈ sessionIds) && Pos.eqb (Session.owner kv.2) user)
    (map_to_list (sessions db)).

(** One iteration of the [cancel] loop on a loaded session.  The table
    is released with [findByIdAndUpdate], which does nothing when the
    table is gone. *)
Definition cancelOne (now : Timestamp) (acc : DB * list (ObjectId * bool))
    (kv : ObjectId * Session.t) : DB * list (ObjectId * bool) :=
  let '(db, results) := acc in
  let '(sessionId, session) := kv in
  if negb (bool_decide (Session.status session = Session.completed)
           || bool_decide (Session.status session = Session.cancelled)) then
    let db1 :=
      set_products
        (SessionController.restoreStock (Session.items session) (products db)) db in
    let s1 := Session.set_endTime (Some now)
                (Session.set_status Session.cancelled session) in
    let s2 := Session.set_paymentStatus Session.pending s1 in
    let s3 := Session.set_paymentMethod None s2 in
    let s4 := Session.set_paymentMethodLabel None s3 in
    let s5 := Session.set_totalPaidAmount 0%Q s4 in
    let s6 := Session.set_remainingAmount 0%Q s5 in
    let s7 := Session.set_payments [] s6 in
    let s8 := Session.set_paymentNotes "Session cancelled - payment reset" s7 in
    let db2 := set_sessions (<[sessionId := s8]> (sessions db1)) db1 in
    let db3 :=
      match tables db2 !! Session.table s8 with
      | Some table =>
        set_tables
          (<[Session.table s8 :=
               Table.set_currentBooking None (Table.set_isOccupied false table)]>
             (tables db2)) db2
      | None => db2
      end in
    (db3, results ++ [(sessionId, true)])
  else
    (db, results ++ [(sessionId, false)]).

(** One iteration of the [delete] loop. *)
Definition deleteOne (acc : DB * list (ObjectId * bool))
    (kv : ObjectId * Session.t) : DB * list (ObjectId * bool) :=
  let '(db, results) := acc in
  let '(sessionId, session) := kv in
  if bool_decide (Session.status session = Session.cancelled) then
    (set_sessions (delete sessionId (sessions db)) db, results ++ [(sessionId, true)])
  else
    (db, results ++ [(sessionId, false)]).

(** [bulkSessionAction]: the response, the store, and the per-session
    [results] (session id and success flag).  The messages are
    shortened (the source interpolates the counts). *)
Definition bulkSessionAction (db : DB) (user : ObjectId) (now : Timestamp)
    (sessionIds : list ObjectId) (action : string)
  : Response * DB * list (ObjectId * bool) :=
  if Z.of_nat (length sessionIds) =? 0 then
    (fail 400 "Session IDs array is required", db, [])
  else if negb (String.eqb action "cancel" || String.eqb action "delete"
                || String.eqb action "export") then
    (fail 400 "Invalid action. Allowed actions: cancel, delete, export", db, [])
  else
    let found := findOwned db user sessionIds in
    if negb (Nat.eqb (length found) (length sessionIds)) then
      (fail 403 "Some sessions do not belong to you or do not exist", db, [])
    else if String.eqb action "cancel" then
      let '(db', results) := fold_left (cancelOne now) found (db, []) in
      (ok 200 "Bulk cancel completed", db', results)
    else if String.eqb action "delete" then
      let '(db', results) := fold_left deleteOne found (db, []) in
      (ok 200 "Bulk delete completed", db', results)
    else
      (ok 200 "sessions exported", db, []).

End BulkActions.

(** ** controllers/inventoryController.js: point-of-sale *)
Module Sales.

(** An entry of the request's [items] array. *)
Record SaleLine := { productId : ObjectId; quantity : Z }.

(** [saleItemSchema] of models/Sale.js. *)
Record SaleItem := {
  product : ObjectId;
  productName : string;
  itemQuantity : Z;
  costPrice : Q;
  sellingPrice : Q;
  totalCost : Q;
  totalRevenue : Q;
  profit : Q
}.

(** The first loop of [recordSale]: every line is checked against the
    stored product (the store does not change during the loop) and
    yields a sale item and a prepared stock update [(productId,
    newStock)].  The first failing line answers the request.  The
    messages are shortened (the source interpolates names and
    counts). *)
Fixpoint prepare (db : DB) (user : ObjectId) (lines : list SaleLine)
    (saleItems : list SaleItem) (productUpdates : list (ObjectId * Z))
  : Response + list SaleItem * list (ObjectId * Z) :=
  match lines with
  | [] => inr (saleItems, productUpdates)
  | item :: rest =>
    match products db !! productId item with
    | None => inl (fail 404 "Product not found")
    | Some p =>
      if negb (Pos.eqb (Product.owner p) user) then
        inl (fail 403 "Access denied for product")
      else if Product.currentStock p <? quantity item then
        inl (fail 400 "Insufficient stock")
      else
        let costPrice := Product.costPrice p in
        let sellingPrice := Product.sellingPrice p in
        let totalCost := (costPrice * inject_Z (quantity item))%Q in
        let totalRevenue := (sellingPrice * inject_Z (quantity item))%Q in
        let profit := (totalRevenue - totalCost)%Q in
        prepare db user rest
          (saleItems ++
             [ {| product := productId item;
                  productName := Product.name p;
                  itemQuantity := quantity item;
                  costPrice := costPrice;
                  sellingPrice := sellingPrice;
                  totalCost := totalCost;
                  totalRevenue := totalRevenue;
                  profit := profit |} ])
          (productUpdates ++
             [ (productId item, Product.currentStock p - quantity item) ])
    end
  end.

(** The second loop: [Product.findByIdAndUpdate(productId,
    { currentStock: newStock })] for every prepared update, in order. *)
Definition applyUpdates (productUpdates : list (ObjectId * Z))
    (coll : gmap ObjectId Product.t) : gmap ObjectId Product.t :=
  fold_left
    (fun acc update =>
       match acc !! update.1 with
       | Some p => <[update.1 := Product.set_currentStock update.2 p]> acc
       | None => acc
       end)
    productUpdates coll.

(** [recordSale], as far as the product collection goes.  [hasHouse]
    says whether the caller owns a venue; [saleSaved] says whether
    [sale.save()] went through (sale number, schema validators and the
    sales collection are outside the modelled store): when it throws,
    the handler answers 500 before any stock is written.  The sale's
    items are returned beside the response. *)
Definition recordSale (db : DB) (user : ObjectId) (hasHouse saleSaved : bool)
    (lines : list SaleLine) : Response * DB * list SaleItem :=
  if negb hasHouse then (fail 404 "No snooker house found", db, [])
  else if Z.of_nat (length lines) =? 0 then
    (fail 400 "At least one item is required", db, [])
  else
    match prepare db user lines [] [] with
    | inl response => (response, db, [])
    | inr (saleItems, productUpdates) =>
      if negb saleSaved then
        (fail 500 "Server error during sale recording", db, [])
      else
        (ok 201 "Sale recorded successfully!",
         set_products (applyUpdates productUpdates (products db)) db,
         saleItems)
    end.

End Sales.

(** * Proof-side notions *)

(** ** Reduction of record updates

    Setters and projections are unfolded call-by-value, so that a chain
    of updates on a destructed session collapses to one record. *)
Ltac session_cbv :=
  cbv beta iota zeta delta
    [Session.set_status Session.set_endTime Session.set_pausedAt Session.set_totalPausedTime
     Session.set_frames Session.set_kittis Session.set_items Session.set_totalItems
     Session.set_totalItemsCost Session.set_totalItemsRevenue Session.set_totalItemsProfit
     Session.set_gameCost Session.set_totalCost Session.set_paymentStatus
     Session.set_paymentMethod Session.set_paymentMethodLabel Session.set_payments
     Session.set_totalPaidAmount Session.set_remainingAmount Session.set_paymentNotes
     Session.set_paymentCompletedAt
     Session.table Session.owner Session.status Session.startTime Session.endTime
     Session.pausedAt Session.totalPausedTime Session.frames Session.kittis Session.items
     Session.totalItems Session.totalItemsCost Session.totalItemsRevenue
     Session.totalItemsProfit Session.pricingMethod Session.minuteRate Session.hourlyRate
     Session.frameRate Session.kittiRate Session.gameCost Session.totalCost
     Session.paymentStatus Session.paymentMethod Session.paymentMethodLabel Session.payments
     Session.totalPaidAmount Session.remainingAmount Session.paymentNotes
     Session.paymentCompletedAt
     Session.updateTotalCost Session.updatePaymentAmounts Session.calculateItemsTotals
     Session.calculateGameCost Session.calculateCurrentCost Session.getDurationInMinutes
     Session.addItem Session.removeItem Session.markAsCredit Session.isOpen
     ].

Tactic Notation "session_cbv" "in" hyp(H) :=
  cbv beta iota zeta delta
    [Session.set_status Session.set_endTime Session.set_pausedAt Session.set_totalPausedTime
     Session.set_frames Session.set_kittis Session.set_items Session.set_totalItems
     Session.set_totalItemsCost Session.set_totalItemsRevenue Session.set_totalItemsProfit
     Session.set_gameCost Session.set_totalCost Session.set_paymentStatus
     Session.set_paymentMethod Session.set_paymentMethodLabel Session.set_payments
     Session.set_totalPaidAmount Session.set_remainingAmount Session.set_paymentNotes
     Session.set_paymentCompletedAt
     Session.table Session.owner Session.status Session.startTime Session.endTime
     Session.pausedAt Session.totalPausedTime Session.frames Session.kittis Session.items
     Session.totalItems Session.totalItemsCost Session.totalItemsRevenue
     Session.totalItemsProfit Session.pricingMethod Session.minuteRate Session.hourlyRate
     Session.frameRate Session.kittiRate Session.gameCost Session.totalCost
     Session.paymentStatus Session.paymentMethod Session.paymentMethodLabel Session.payments
     Session.totalPaidAmount Session.remainingAmount Session.paymentNotes
     Session.paymentCompletedAt
     Session.updateTotalCost Session.updatePaymentAmounts Session.calculateItemsTotals
     Session.calculateGameCost Session.calculateCurrentCost Session.getDurationInMinutes
     Session.addItem Session.removeItem Session.markAsCredit Session.isOpen
     ] in H.

(** Case split on the three-way branch of [updatePaymentAmounts]. *)
Ltac payment_cases :=
  repeat match goal with
         | |- context [Qeq_bool ?a ?b] => destruct (Qeq_bool a b) eqn:?
         | |- context [Qle_bool ?a ?b] => destruct (Qle_bool a b) eqn:?
         | |- context [match ?x with Some _ => _ | None => _ end] => destruct x eqn:?
         end.

(** Identity, state and timing fields of a session. *)
Definition same_core (s s' : Session.t) : Prop :=
  Session.table s' = Session.table s ∧ Session.owner s' = Session.owner s ∧
  Session.status s' = Session.status s ∧ Session.startTime s' = Session.startTime s ∧
  Session.endTime s' = Session.endTime s ∧ Session.pausedAt s' = Session.pausedAt s ∧
  Session.totalPausedTime s' = Session.totalPausedTime s.

(** A session whose derived payment fields agree with its payments list
    and stored total cost. *)
Definition payment_derived (s : Session.t) : Prop :=
  Session.totalPaidAmount s = sum_amounts (Session.payments s) ∧
  Session.remainingAmount s =
    Session.max0 (Session.totalCost s - sum_amounts (Session.payments s)) ∧
  Session.paymentStatus s =
    (if Qeq_bool (sum_amounts (Session.payments s)) 0 then Session.pending
     else if Qle_bool (Session.totalCost s) (sum_amounts (Session.payments s))
          then Session.paid
          else Session.credit).

(** What a request may do to a session that already exists. *)
Definition session_step (now : Timestamp) (s s' : Session.t) : Prop :=
  Session.table s' = Session.table s ∧
  Session.owner s' = Session.owner s ∧
  (Session.isOpen s' = true → Session.isOpen s = true) ∧
  (∀ item, item ∈ Session.items s' →
           item ∈ Session.items s ∨ 1 ≤ SessionItem.quantity item) ∧
  (Session.endTime s' = Session.endTime s ∨
   Session.endTime s' = Some now ∧ Session.isOpen s' = false).

(** What a newly created session looks like. *)
Definition session_fresh (m : gmap ObjectId Session.t) (s' : Session.t) : Prop :=
  Session.isOpen s' = true ∧ Session.items s' = [] ∧ Session.endTime s' = None ∧
  ∀ j sj, m !! j = Some sj → Session.isOpen sj = true →
          Session.table sj ≠ Session.table s'.

(** One request leaves the collection alone, rewrites one session, or
    adds one session under an unused [_id]. *)
Inductive sessions_step (now : Timestamp) (m : gmap ObjectId Session.t)
  : gmap ObjectId Session.t → Prop :=
| step_same : sessions_step now m m
| step_update i s s' :
    m !! i = Some s → session_step now s s' → sessions_step now m (<[i := s']> m)
| step_fresh i s' :
    m !! i = None → session_fresh m s' → sessions_step now m (<[i := s']> m).

Ltac db_cbn :=
  cbn [fst snd sessions products tables set_sessions set_products set_tables].

Ltac handler_cases :=
  repeat match goal with
         | |- context [match ?m !! ?k with _ => _ end] => destruct (m !! k) eqn:?
         | |- context [if ?b then _ else _] => destruct b eqn:?
         | |- context [match List.find ?f ?l with _ => _ end] =>
             destruct (List.find f l) eqn:?
         | |- context [match getActiveSession ?a ?b with _ => _ end] =>
             destruct (getActiveSession a b) eqn:?
         | |- context [match Session.markAsPaid ?a ?b ?c ?d ?e with _ => _ end] =>
             destruct (Session.markAsPaid a b c d e) eqn:?
         end; db_cbn; try apply step_same.

Ltac step_goal :=
  unfold session_step; session_cbv;
  split_and!;
  [ reflexivity | reflexivity | try done | intros ? ?; by left
  | first [ by left | by right ] ].

Definition products_nonneg (coll : gmap ObjectId Product.t) : Prop :=
  ∀ pid p, coll !! pid = Some p → 0 ≤ Product.currentStock p.

Definition all_timing_ok (db : DB) : Prop :=
  ∀ sid s, sessions db !! sid = Some s → timing_ok s.

(** The in-place edits the handlers make on a loaded session, named so
    that results can be stated. *)
Definition paused_at (now : Timestamp) (s : Session.t) : Session.t :=
  Session.set_pausedAt (Some now) (Session.set_status Session.paused s).

Definition fold_pause (now : Timestamp) (s : Session.t) : Session.t :=
  match Session.pausedAt s with
  | Some p =>
      Session.set_pausedAt None
        (Session.set_totalPausedTime (Session.totalPausedTime s + (now - p)) s)
  | None => s
  end.

Definition resumed_at (now : Timestamp) (s : Session.t) : Session.t :=
  fold_pause now (Session.set_status Session.active s).

Definition ended_at (now : Timestamp) (s : Session.t) : Session.t :=
  fold_pause now (Session.set_endTime (Some now) (Session.set_status Session.completed s)).

Definition cancelled_at (now : Timestamp) (s : Session.t) : Session.t :=
  Session.set_paymentNotes "Session cancelled - payment reset"
    (Session.set_payments []
       (Session.set_remainingAmount 0%Q
          (Session.set_totalPaidAmount 0%Q
             (Session.set_paymentMethodLabel None
                (Session.set_paymentMethod None
                   (Session.set_paymentStatus Session.pending
                      (Session.set_endTime (Some now)
                         (Session.set_status Session.cancelled s)))))))).

Definition free_table (tableId : ObjectId) (coll : gmap ObjectId Table.t)
  : gmap ObjectId Table.t :=
  match coll !! tableId with
  | Some table =>
      <[tableId := Table.set_currentBooking None (Table.set_isOccupied false table)]> coll
  | None => coll
  end.

Definition credit_note (paymentNotes : string) : string :=
  if String.eqb paymentNotes "" then "Payment credited - to be collected later"
  else paymentNotes.

(** ** Example data *)
Module Example.

Definition alice : ObjectId := 1%positive.
Definition T0 : Timestamp := 1700000000000.
Definition minute : Z := 60000.
Definition T30 : Timestamp := T0 + 30 * minute.

(** A per-minute table whose stored rate is 100 per hour. *)
Definition table_pm : Table.t :=
  {| Table.owner := alice; Table.status := Table.active;
     Table.pricingMethod := per_minute; Table.hourlyRate := 100%Q;
     Table.frameRate := 0%Q; Table.kittiRate := 0%Q;
     Table.isOccupied := false; Table.currentBooking := None |}.

(** A frame-and-kitti table. *)
Definition table_fk : Table.t :=
  {| Table.owner := alice; Table.status := Table.active;
     Table.pricingMethod := frame_kitti; Table.hourlyRate := 0%Q;
     Table.frameRate := 50%Q; Table.kittiRate := 20%Q;
     Table.isOccupied := false; Table.currentBooking := None |}.

(** An item costing 50 and selling at 80, ten in stock. *)
Definition chips : Product.t :=
  {| Product.owner := alice; Product.name := "chips";
     Product.costPrice := 50%Q; Product.sellingPrice := 80%Q;
     Product.currentStock := 10 |}.

Definition db0 : DB :=
  {| tables := <[1%positive := table_pm]> (<[2%positive := table_fk]> ∅);
     sessions := ∅;
     products := <[7%positive := chips]> ∅ |}.

(** Table 1 booked at [T0] as session 10, then two units of product 7
    added. *)
Definition db_two_chips : DB :=
  run db0 [ (alice, T0, StartSession 1%positive 10%positive);
            (alice, T0, AddItem 10%positive 7%positive 2 100%positive) ].

(** Table 1 booked at [T0] as session 10 with three units of product
    7, and a cash payment of 100 recorded on it. *)
Definition db_three_chips : DB :=
  run db0 [ (alice, T0, StartSession 1%positive 10%positive);
            (alice, T0, AddItem 10%positive 7%positive 3 100%positive) ].

Definition db_paid_100 : DB :=
  match sessions db_three_chips !! 10%positive with
  | Some s =>
      match Session.recordPayment T0
              {| pd_method := "cash"; pd_amount := 100%Q;
                 pd_transactionId := ""; pd_notes := "" |} s with
      | Some s' =>
          set_sessions (<[10%positive := s']> (sessions db_three_chips)) db_three_chips
      | None => db_three_chips
      end
  | None => db_three_chips
  end.

(** Table 2 (frame and kitti, no frame played yet) booked at [T0] as
    session 11. *)
Definition db_fresh_fk : DB :=
  run db0 [ (alice, T0, StartSession 2%positive 11%positive) ].

(** Session 10 as stored in [db_three_chips]: three units selling at
    80 each, nothing paid. *)
Definition session10 : Session.t :=
  default (SessionController.sessionData alice T0 1%positive table_pm)
    (sessions db_three_chips !! 10%positive).


(** More items, a stock write-off, an item removal and a cancel. *)
Definition stock_trace : list (ObjectId * Timestamp * Request) :=
  [ (alice, T0 + minute, AddItem 10%positive 7%positive 7 101%positive);
    (alice, T0 + 2 * minute, UpdateStock 7%positive 100 "subtract");
    (alice, T0 + 3 * minute, RemoveItem 10%positive 100%positive);
    (alice, T0 + 4 * minute, CancelSession 10%positive) ].

(** Table 1 booked, paused after ten minutes. *)
Definition db_paused : DB :=
  run db0 [ (alice, T0, StartSession 1%positive 10%positive);
            (alice, T0 + 10 * minute, Pause 10%positive) ].

Definition session_paused : Session.t :=
  default (SessionController.sessionData alice T0 1%positive table_pm)
    (sessions db_paused !! 10%positive).

(** Bookings, a pause, a second booking attempt, an end and a cancel. *)
Definition booking_trace : list (ObjectId * Timestamp * Request) :=
  [ (alice, T0, StartSession 1%positive 10%positive);
    (alice, T0 + minute, StartSession 1%positive 11%positive);
    (alice, T0 + 2 * minute, Pause 10%positive);
    (alice, T0 + 3 * minute, StartSession 2%positive 12%positive);
    (alice, T0 + 4 * minute, CancelSession 10%positive);
    (alice, T0 + 5 * minute, StartSession 1%positive 13%positive) ].

End Example.


(** The item snapshot [addItemToSession] appends. *)
Definition item_snapshot (now : Timestamp) (itemId productId : ObjectId)
    (quantity : Z) (p : Product.t) : SessionItem.t :=
  {| SessionItem._id := itemId; SessionItem.product := productId;
     SessionItem.productName := Product.name p;
     SessionItem.quantity := quantity;
     SessionItem.costPrice := Product.costPrice p;
     SessionItem.sellingPrice := Product.sellingPrice p;
     SessionItem.totalCost := (Product.costPrice p * inject_Z quantity)%Q;
     SessionItem.totalRevenue := (Product.sellingPrice p * inject_Z quantity)%Q;
     SessionItem.profit :=
       (Product.sellingPrice p * inject_Z quantity
        - Product.costPrice p * inject_Z quantity)%Q;
     SessionItem.addedAt := now |}.

(** Completed or cancelled. *)
Definition isTerminal (s : Session.t) : bool :=
  bool_decide (Session.status s = Session.completed)
  || bool_decide (Session.status s = Session.cancelled).

(** Quantity of the last sale line that names product [pid], if any. *)
Definition last_quantity (pid : ObjectId) (lines : list Sales.SaleLine) : option Z :=
  fold_left
    (fun acc line => if Pos.eqb (Sales.productId line) pid
                     then Some (Sales.quantity line) else acc)
    lines None.

(** Value of the last prepared update for product [pid], if any. *)
Definition last_update (pid : ObjectId) (updates : list (ObjectId * Z)) : option Z :=
  fold_left (fun acc u => if Pos.eqb u.1 pid then Some u.2 else acc) updates None.

(** What the first loop of [recordSale] prepares for a line that passes
    its checks. *)
Definition line_ok (db : DB) (user : ObjectId) (line : Sales.SaleLine)
    (item : Sales.SaleItem) (u : ObjectId * Z) : Prop :=
  ∃ p, products db !! Sales.productId line = Some p ∧ Product.owner p = user ∧
       Sales.quantity line ≤ Product.currentStock p ∧
       Sales.itemQuantity item = Sales.quantity line ∧
       Sales.product item = Sales.productId line ∧
       u = (Sales.productId line, Product.currentStock p - Sales.quantity line).

(** * Properties *)

(** ** What the session methods leave alone *)

Lemma same_core_refl s : same_core s s.
Proof. by repeat split. Qed.

Lemma same_core_trans s1 s2 s3 : same_core s1 s2 → same_core s2 s3 → same_core s1 s3.
Proof. unfold same_core. intuition congruence. Qed.

Lemma same_core_isOpen s s' : same_core s s' → Session.isOpen s' = Session.isOpen s.
Proof. intros (_ & _ & H & _). unfold Session.isOpen. by rewrite H. Qed.

Lemma updatePaymentAmounts_core now s : same_core s (Session.updatePaymentAmounts now s).
Proof. destruct s. unfold same_core. session_cbv. payment_cases; by repeat split. Qed.

Lemma updateTotalCost_core now s : same_core s (Session.updateTotalCost now s).
Proof. destruct s. unfold same_core. session_cbv. payment_cases; by repeat split. Qed.

Lemma updateTotalCost_items now s :
  Session.items (Session.updateTotalCost now s) = Session.items s.
Proof. destruct s. session_cbv. payment_cases; reflexivity. Qed.

Lemma updateTotalCost_payments now s :
  Session.payments (Session.updateTotalCost now s) = Session.payments s.
Proof. destruct s. session_cbv. payment_cases; reflexivity. Qed.

Lemma addItem_core now d s : same_core s (Session.addItem now d s).
Proof. destruct s. unfold same_core. session_cbv. payment_cases; by repeat split. Qed.

Lemma removeItem_core now i s : same_core s (Session.removeItem now i s).
Proof. destruct s. unfold same_core. session_cbv. payment_cases; by repeat split. Qed.

Lemma markAsCredit_core n s : same_core s (Session.markAsCredit n s).
Proof. destruct s. unfold same_core. session_cbv. by repeat split. Qed.

Lemma markAsCredit_items n s : Session.items (Session.markAsCredit n s) = Session.items s.
Proof. by destruct s. Qed.

Lemma recordPayment_core now pd s s' :
  Session.recordPayment now pd s = Some s' → same_core s s'.
Proof.
  unfold Session.recordPayment. destruct (Session.validMethods _); [|done].
  intros [= <-]. eapply same_core_trans; [|apply updatePaymentAmounts_core].
  destruct s. unfold same_core. session_cbv.
  destruct (_ || _); by repeat split.
Qed.

Lemma recordPayment_items now pd s s' :
  Session.recordPayment now pd s = Some s' → Session.items s' = Session.items s.
Proof.
  unfold Session.recordPayment. destruct (Session.validMethods _); [|done].
  intros [= <-]. destruct s. session_cbv.
  destruct (_ || _); payment_cases; reflexivity.
Qed.

Lemma addItem_items now d s :
  Session.items (Session.addItem now d s) =
  Session.items s ++
    [ {| SessionItem._id := id_itemId d; SessionItem.product := id_product d;
         SessionItem.productName := id_productName d;
         SessionItem.quantity := id_quantity d;
         SessionItem.costPrice := id_costPrice d;
         SessionItem.sellingPrice := id_sellingPrice d;
         SessionItem.totalCost := (id_costPrice d * inject_Z (id_quantity d))%Q;
         SessionItem.totalRevenue := (id_sellingPrice d * inject_Z (id_quantity d))%Q;
         SessionItem.profit :=
           (id_sellingPrice d * inject_Z (id_quantity d)
            - id_costPrice d * inject_Z (id_quantity d))%Q;
         SessionItem.addedAt := now |} ].
Proof. destruct s. session_cbv. payment_cases; reflexivity. Qed.

Lemma removeItem_items now i s :
  Session.items (Session.removeItem now i s) =
  List.filter (fun item => negb (Pos.eqb (SessionItem._id item) i)) (Session.items s).
Proof. destruct s. session_cbv. payment_cases; reflexivity. Qed.

(** ** Payment bookkeeping *)

Lemma fold_amounts_from (l : list Payment.t) (a : Q) :
  (fold_left (fun sum payment => sum + Payment.amount payment) l a
   == a + sum_amounts l)%Q.
Proof.
  unfold sum_amounts. revert a. induction l as [|p l IH]; intros a; simpl.
  - lra.
  - rewrite IH, (IH (0 + Payment.amount p)%Q). lra.
Qed.



(** The fields [updatePaymentAmounts] derives, read off the payments
    list and the stored total cost. *)
Lemma updatePaymentAmounts_derived now s :
  let s' := Session.updatePaymentAmounts now s in
  let totalPaid := sum_amounts (Session.payments s) in
  Session.payments s' = Session.payments s ∧
  Session.totalCost s' = Session.totalCost s ∧
  Session.totalPaidAmount s' = totalPaid ∧
  Session.remainingAmount s' = Session.max0 (Session.totalCost s - totalPaid) ∧
  Session.paymentStatus s' =
    (if Qeq_bool totalPaid 0 then Session.pending
     else if Qle_bool (Session.totalCost s) totalPaid then Session.paid
     else Session.credit).
Proof.
  destruct s. unfold sum_amounts. session_cbv. payment_cases; by repeat split.
Qed.

Lemma updatePaymentAmounts_payment_derived now s :
  payment_derived (Session.updatePaymentAmounts now s).
Proof.
  destruct (updatePaymentAmounts_derived now s) as (Hp & Hc & Ht & Hr & Hs).
  unfold payment_derived. rewrite Hp, Hc. by repeat split.
Qed.


Lemma recordPayment_invalid now pd s :
  Session.validMethods (pd_method pd) = None → Session.recordPayment now pd s = None.
Proof. intros H. unfold Session.recordPayment. by rewrite H. Qed.




Lemma updateTotalCost_idempotent now s :
  Session.updateTotalCost now (Session.updateTotalCost now s) =
  Session.updateTotalCost now s.
Proof.
  remember (Session.updateTotalCost now s) as r eqn:Hr.
  destruct s. session_cbv in Hr.
  destruct (Qeq_bool _ _) eqn:E1 in Hr;
    [|destruct (Qle_bool _ _) eqn:E2 in Hr; [destruct paymentCompletedAt|]];
    subst r; session_cbv; rewrite ?E1, ?E2; reflexivity.
Qed.

(** C8: running the total recompute twice in a row at the same instant
    gives the same [gameCost], [totalItemsRevenue] and [totalCost] as
    running it once. *)
Theorem C8_total_recompute_idempotent (now : Timestamp) (s : Session.t) :
  let once := Session.updateTotalCost now s in
  let twice := Session.updateTotalCost now once in
  Session.gameCost twice = Session.gameCost once ∧
  Session.totalItemsRevenue twice = Session.totalItemsRevenue once ∧
  Session.totalCost twice = Session.totalCost once.
Proof.
  cbv zeta. by rewrite updateTotalCost_idempotent.
Qed.


(** ** The session collection under one request *)

Lemma getActiveSession_None tableId (m : gmap ObjectId Session.t) :
  getActiveSession tableId m = None →
  ∀ i s, m !! i = Some s → Session.isOpen s = true → Session.table s ≠ tableId.
Proof.
  unfold getActiveSession. intros H i s Hi Ho Ht.
  apply fmap_None, list_find_None in H.
  rewrite Forall_forall in H. apply (H (i, s)).
  - by apply elem_of_map_to_list.
  - done.
Qed.

Lemma getActiveSession_Some tableId (m : gmap ObjectId Session.t) i s :
  getActiveSession tableId m = Some (i, s) →
  m !! i = Some s ∧ Session.table s = tableId ∧ Session.isOpen s = true.
Proof.
  unfold getActiveSession. intros H.
  apply fmap_Some in H as ([n [j x]] & H & E). simpl in E. injection E as <- <-.
  apply list_find_Some in H as (H1 & [H2 H3] & _).
  apply list_elem_of_lookup_2, elem_of_map_to_list in H1. done.
Qed.

Lemma getActiveSession_is_Some tableId (m : gmap ObjectId Session.t) i s :
  m !! i = Some s → Session.table s = tableId → Session.isOpen s = true →
  is_Some (getActiveSession tableId m).
Proof.
  intros Hi Ht Ho. destruct (getActiveSession tableId m) eqn:E; [done|].
  by destruct (getActiveSession_None _ _ E i s Hi Ho).
Qed.

Lemma session_step_core now s s' :
  same_core s s' → Session.items s' = Session.items s → session_step now s s'.
Proof.
  intros Hc Hi. pose proof (same_core_isOpen _ _ Hc) as Ho.
  destruct Hc as (Ht & Hw & _ & _ & He & _).
  unfold session_step. rewrite Hi, Ho. split_and!; auto.
Qed.

Lemma isOpen_status s :
  Session.isOpen s = true ↔
  Session.status s = Session.active ∨ Session.status s = Session.paused.
Proof.
  unfold Session.isOpen. rewrite orb_true_iff, !bool_decide_eq_true. done.
Qed.

Lemma startSession_sessions db user now tableId newId :
  sessions_step now (sessions db)
    (sessions (SessionController.startSession db user now tableId newId).2).
Proof.
  unfold SessionController.startSession. cbv zeta. handler_cases.
  all: apply step_fresh; [done|].
  all: split_and!; [reflexivity | reflexivity | reflexivity |].
  all: intros j sj Hj Ho; cbn; by eapply getActiveSession_None.
Qed.

Lemma addItemToSession_sessions db user now sid pid q iid :
  sessions_step now (sessions db)
    (sessions (SessionController.addItemToSession db user now sid pid q iid).2).
Proof.
  unfold SessionController.addItemToSession. cbv zeta. handler_cases.
  eapply step_update; [done|].
  pose proof (addItem_core now
    {| id_itemId := iid; id_product := pid; id_productName := Product.name t0;
       id_quantity := q; id_costPrice := Product.costPrice t0;
       id_sellingPrice := Product.sellingPrice t0 |} t) as Hc.
  pose proof (same_core_isOpen _ _ Hc) as Ho.
  destruct Hc as (Ht & Hw & _ & _ & He & _).
  unfold session_step. rewrite Ho, addItem_items. split_and!; auto.
  intros item [Hi|Hi]%elem_of_app; [by left|].
  apply list_elem_of_singleton in Hi as ->. right. simpl.
  apply orb_false_iff in Heqb as [_ ?]. lia.
Qed.

Lemma removeItemFromSession_sessions db user now sid iid :
  sessions_step now (sessions db)
    (sessions (SessionController.removeItemFromSession db user now sid iid).2).
Proof.
  unfold SessionController.removeItemFromSession. cbv zeta. handler_cases.
  all: eapply step_update; [done|].
  all: pose proof (removeItem_core now iid t) as Hc;
    pose proof (same_core_isOpen _ _ Hc) as Ho;
    destruct Hc as (Ht & Hw & _ & _ & He & _);
    unfold session_step; rewrite Ho, removeItem_items; split_and!; auto.
  all: intros item Hi%list_elem_of_In%filter_In; left; apply list_elem_of_In; tauto.
Qed.

Lemma session_step_then_core now s s1 s2 :
  session_step now s s1 → same_core s1 s2 → Session.items s2 = Session.items s1 →
  session_step now s s2.
Proof.
  intros (Ht & Hw & Ho & Hi & He) Hc Hi2.
  pose proof (same_core_isOpen _ _ Hc) as Ho2.
  destruct Hc as (Ht2 & Hw2 & _ & _ & He2 & _).
  unfold session_step. rewrite Ho2, Hi2, Ht2, Hw2, He2. done.
Qed.

Lemma applyAction_step now action frames kittis s :
  session_step now s (SessionController.applyAction now action frames kittis s).
Proof.
  destruct s. unfold SessionController.applyAction.
  repeat match goal with
         | |- context [String.eqb ?a ?b] => destruct (String.eqb a b)
         end;
    session_cbv;
    repeat match goal with
           | |- context [bool_decide ?P] => destruct (bool_decide_reflect P); subst
           end;
    try destruct pausedAt; try destruct frames; try destruct kittis; step_goal.
Qed.

Lemma updateSession_sessions db user now sid action frames kittis :
  sessions_step now (sessions db)
    (sessions (SessionController.updateSession db user now sid action frames kittis).2).
Proof.
  unfold SessionController.updateSession. cbv zeta. handler_cases.
  eapply step_update; [done|].
  eapply session_step_then_core;
    [apply applyAction_step | apply updateTotalCost_core | apply updateTotalCost_items].
Qed.

Lemma markAsPaid_step now method txn notes s s' :
  Session.markAsPaid now method txn notes s = Some s' → session_step now s s'.
Proof.
  unfold Session.markAsPaid. intros H.
  apply session_step_core; [by eapply recordPayment_core | by eapply recordPayment_items].
Qed.

Lemma confirmPayment_sessions db user now sid ps pm tx pn :
  sessions_step now (sessions db)
    (sessions (SessionController.confirmPayment db user now sid ps pm tx pn).2).
Proof.
  unfold SessionController.confirmPayment. cbv zeta. handler_cases.
  all: rewrite ?insert_insert_eq; eapply step_update; [done|].
  all: lazymatch goal with
       | H : Session.markAsPaid _ _ _ _ ?y = Some ?x |- session_step _ ?s ?x =>
           apply markAsPaid_step in H; destruct H as (Ht & Hw & Ho & Hi & He);
           pose proof (updateTotalCost_core now s) as Hc;
           pose proof (same_core_isOpen _ _ Hc) as Ho2;
           destruct Hc as (Ht2 & Hw2 & _ & _ & He2 & _);
           unfold session_step; rewrite <- Ho2, <- Ht2, <- Hw2, <- He2;
           rewrite <- (updateTotalCost_items now s); done
       | |- session_step _ _ (Session.markAsCredit _ _) =>
           eapply session_step_then_core;
           [ apply session_step_core;
             [apply updateTotalCost_core | apply updateTotalCost_items]
           | apply markAsCredit_core | apply markAsCredit_items ]
       | |- session_step _ _ (Session.updateTotalCost _ _) =>
           apply session_step_core;
           [apply updateTotalCost_core | apply updateTotalCost_items]
       end.
Qed.

Lemma endSession_sessions db user now sid :
  sessions_step now (sessions db)
    (sessions (SessionController.endSession db user now sid).2).
Proof.
  unfold SessionController.endSession. cbv zeta. handler_cases.
  all: eapply step_update; [done|].
  all: eapply session_step_then_core;
    [| apply updateTotalCost_core | apply updateTotalCost_items].
  all: match goal with |- session_step _ ?s _ => destruct s end; session_cbv.
  all: match goal with |- context [match ?x with Some _ => _ | None => _ end] =>
         destruct x end; step_goal.
Qed.

Lemma cancelSession_sessions db user now sid :
  sessions_step now (sessions db)
    (sessions (SessionController.cancelSession db user now sid).2).
Proof.
  unfold SessionController.cancelSession. cbv zeta. handler_cases.
  all: eapply step_update; [done|].
  all: match goal with |- session_step _ ?s _ => destruct s end; step_goal.
Qed.

Lemma pauseSession_sessions db user now sid :
  sessions_step now (sessions db)
    (sessions (SessionController.pauseSession db user now sid).2).
Proof.
  unfold SessionController.pauseSession. cbv zeta. handler_cases.
  eapply step_update; [done|].
  apply negb_false_iff, bool_decide_eq_true in Heqb0.
  destruct t. cbn in Heqb0. subst. step_goal.
Qed.

Lemma resumeSession_sessions db user now sid :
  sessions_step now (sessions db)
    (sessions (SessionController.resumeSession db user now sid).2).
Proof.
  unfold SessionController.resumeSession. cbv zeta. handler_cases.
  eapply step_update; [done|].
  apply negb_false_iff, bool_decide_eq_true in Heqb0.
  destruct t. cbn in Heqb0. subst. session_cbv. destruct pausedAt; step_goal.
Qed.

Lemma updateStock_sessions db user pid q op :
  sessions (InventoryController.updateStock db user pid q op).2 = sessions db.
Proof.
  unfold InventoryController.updateStock. handler_cases; reflexivity.
Qed.

Lemma handle_sessions db user now r :
  sessions_step now (sessions db) (sessions (handle db user now r).2).
Proof.
  destruct r; simpl.
  - apply startSession_sessions.
  - apply addItemToSession_sessions.
  - apply removeItemFromSession_sessions.
  - apply updateSession_sessions.
  - apply confirmPayment_sessions.
  - apply endSession_sessions.
  - apply cancelSession_sessions.
  - apply pauseSession_sessions.
  - apply resumeSession_sessions.
  - rewrite updateStock_sessions. apply step_same.
Qed.

(** ** Stock ledger *)

Lemma updateStock_add q p :
  Product.updateStock q "add" p =
  Product.set_currentStock (Product.currentStock p + q) p.
Proof. reflexivity. Qed.

Lemma restoreStock_cons item items coll :
  SessionController.restoreStock (item :: items) coll =
  SessionController.restoreStock items
    match coll !! SessionItem.product item with
    | Some product =>
        <[SessionItem.product item :=
            Product.updateStock (SessionItem.quantity item) "add" product]> coll
    | None => coll
    end.
Proof. reflexivity. Qed.

(** The restoring loop adds to every stored product the units the items
    hold of it, and creates no product. *)
Lemma restoreStock_lookup items : ∀ (coll : gmap ObjectId Product.t) pid,
  SessionController.restoreStock items coll !! pid =
  (fun p => Product.set_currentStock (Product.currentStock p + units_of pid items) p)
    <$> coll !! pid.
Proof.
  induction items as [|item items IH]; intros coll pid.
  - simpl. destruct (coll !! pid) as [p|] eqn:E; simpl; [|done].
    f_equal. destruct p. unfold Product.set_currentStock. simpl. f_equal. lia.
  - rewrite restoreStock_cons, IH. simpl.
    destruct (Pos.eqb_spec (SessionItem.product item) pid) as [->|Hne].
    + destruct (coll !! pid) as [p|] eqn:E.
      * rewrite lookup_insert_eq. simpl. f_equal.
        destruct p. unfold Product.set_currentStock. simpl. f_equal. lia.
      * by rewrite E.
    + destruct (coll !! SessionItem.product item); [|done].
      by rewrite lookup_insert_ne.
Qed.

Lemma units_of_nonneg pid items :
  (∀ item, item ∈ items → 0 ≤ SessionItem.quantity item) → 0 ≤ units_of pid items.
Proof.
  induction items as [|item items IH]; intros H; simpl; [lia|].
  assert (0 ≤ units_of pid items) by (apply IH; intros; apply H; by right).
  assert (0 ≤ SessionItem.quantity item) by (apply H; by left).
  destruct (Pos.eqb _ _); lia.
Qed.

Lemma updateStock_nonneg q op p :
  0 ≤ q → 0 ≤ Product.currentStock p →
  0 ≤ Product.currentStock (Product.updateStock q op p).
Proof.
  intros Hq Hp. unfold Product.updateStock.
  repeat (destruct (String.eqb _ _)); simpl; lia.
Qed.

Lemma products_nonneg_insert coll pid p :
  products_nonneg coll → 0 ≤ Product.currentStock p →
  products_nonneg (<[pid := p]> coll).
Proof.
  intros H Hp i x. rewrite lookup_insert. case_decide; [by intros [= <-]|]. apply H.
Qed.

Lemma handle_products db user now r :
  stock_ok db → products_nonneg (products (handle db user now r).2).
Proof.
  intros [Hp Hi]. destruct r; simpl.
  - unfold SessionController.startSession. cbv zeta.
    handler_cases; db_cbn; exact Hp.
  - unfold SessionController.addItemToSession. cbv zeta.
    handler_cases; db_cbn; try exact Hp.
    apply products_nonneg_insert; [exact Hp|].
    unfold Product.updateStock. simpl. lia.
  - unfold SessionController.removeItemFromSession. cbv zeta.
    handler_cases; db_cbn; try exact Hp.
    apply products_nonneg_insert; [exact Hp|].
    match goal with H : List.find _ _ = Some _ |- _ => apply find_some in H as [Hin _] end.
    apply updateStock_nonneg; [|by eapply Hp].
    eapply Hi; [done|]. by apply list_elem_of_In.
  - unfold SessionController.updateSession. cbv zeta.
    handler_cases; db_cbn; exact Hp.
  - unfold SessionController.confirmPayment. cbv zeta.
    handler_cases; db_cbn; exact Hp.
  - unfold SessionController.endSession. cbv zeta.
    handler_cases; db_cbn; exact Hp.
  - unfold SessionController.cancelSession. cbv zeta.
    handler_cases; db_cbn; try exact Hp.
    all: intros pid p; rewrite restoreStock_lookup;
      intros (p0 & E & ->)%fmap_Some; simpl;
      pose proof (Hp _ _ E);
      match goal with H : sessions _ !! ?sid = Some ?s |- _ =>
        pose proof (units_of_nonneg pid (Session.items s)
                      (fun item => Hi sid s item H)) end; lia.
  - unfold SessionController.pauseSession. cbv zeta.
    handler_cases; db_cbn; exact Hp.
  - unfold SessionController.resumeSession. cbv zeta.
    handler_cases; db_cbn; exact Hp.
  - unfold InventoryController.updateStock.
    handler_cases; db_cbn; try exact Hp.
    apply products_nonneg_insert; [exact Hp|].
    apply updateStock_nonneg; [|by eapply Hp].
    match goal with H : (_ || _) = false |- _ => apply orb_false_iff in H as [_ ?] end. lia.
Qed.

Lemma sessions_step_items now m m' :
  sessions_step now m m' →
  (∀ sid s item, m !! sid = Some s → item ∈ Session.items s →
                 0 ≤ SessionItem.quantity item) →
  ∀ sid s item, m' !! sid = Some s → item ∈ Session.items s →
                0 ≤ SessionItem.quantity item.
Proof.
  intros Hs Hi sid s' item. destruct Hs as [|i s s1 Hm Hst|i s1 Hm Hf].
  - apply Hi.
  - rewrite lookup_insert. case_decide; [|apply Hi]. intros [= <-] Hin.
    destruct Hst as (_ & _ & _ & Hit & _).
    destruct (Hit _ Hin) as [?|?]; [by eapply Hi | lia].
  - rewrite lookup_insert. case_decide; [|apply Hi]. intros [= <-].
    destruct Hf as (_ & -> & _). by intros ?%not_elem_of_nil.
Qed.

Lemma handle_stock_ok db user now r : stock_ok db → stock_ok (handle db user now r).2.
Proof.
  intros H. split.
  - by apply handle_products.
  - eapply sessions_step_items; [apply handle_sessions | apply H].
Qed.

Lemma run_snoc db trace x :
  run db (trace ++ [x]) = (handle (run db trace) x.1.1 x.1.2 x.2).2.
Proof. unfold run. rewrite fold_left_app. by destruct x as [[u n] r]. Qed.

Lemma run_stock_ok db trace : stock_ok db → stock_ok (run db trace).
Proof.
  intros H. induction trace as [|x trace IH] using rev_ind; [done|].
  rewrite run_snoc. by apply handle_stock_ok.
Qed.

(** ** One open session per table *)

Lemma sessions_step_one_open now db db' :
  sessions_step now (sessions db) (sessions db') →
  one_open_session_per_table db → one_open_session_per_table db'.
Proof.
  unfold one_open_session_per_table.
  intros Hs Hinv. destruct Hs as [|k s s1 Hm Hst|k s1 Hm Hf].
  - done.
  - intros i j si sj. rewrite !lookup_insert.
    destruct Hst as (Ht & _ & Ho & _).
    repeat case_decide; subst; try done.
    + intros [= <-] Hj Hoi Hoj Htab. eapply Hinv; eauto. congruence.
    + intros Hi [= <-] Hoi Hoj Htab. eapply Hinv; eauto. congruence.
    + apply Hinv.
  - intros i j si sj. rewrite !lookup_insert.
    destruct Hf as (_ & _ & _ & Hfree).
    repeat case_decide; subst; try done.
    + intros [= <-] Hj _ Hoj Htab. by destruct (Hfree _ _ Hj Hoj).
    + intros Hi [= <-] Hoi _ Htab. by destruct (Hfree _ _ Hi Hoi).
    + apply Hinv.
Qed.

Lemma run_one_open db trace :
  one_open_session_per_table db → one_open_session_per_table (run db trace).
Proof.
  intros H. induction trace as [|x trace IH] using rev_ind; [done|].
  rewrite run_snoc. eapply sessions_step_one_open; [apply handle_sessions | done].
Qed.

(** ** Timing shape *)

Lemma sessions_step_timing now db db' :
  now ≠ 0 → sessions_step now (sessions db) (sessions db') →
  all_timing_ok db → all_timing_ok db'.
Proof.
  unfold all_timing_ok, timing_ok.
  intros Hnow Hs Hinv. destruct Hs as [|k s s1 Hm Hst|k s1 Hm Hf].
  - done.
  - intros sid s'. rewrite lookup_insert. case_decide; [|apply Hinv]. intros [= <-].
    destruct Hst as (_ & _ & Ho & _ & He). destruct (Hinv _ _ Hm) as [H1 H2].
    destruct He as [He|[He Hc]]; rewrite He.
    + split; [intros X; apply H1, Ho, X | done].
    + split; [congruence | congruence].
  - intros sid s'. rewrite lookup_insert. case_decide; [|apply Hinv]. intros [= <-].
    destruct Hf as (_ & _ & -> & _). done.
Qed.

Lemma run_timing_ok db trace :
  Forall (fun x : ObjectId * Timestamp * Request => x.1.2 ≠ 0) trace →
  all_timing_ok db → all_timing_ok (run db trace).
Proof.
  intros Ht H. induction trace as [|x trace IH] using rev_ind; [done|].
  apply Forall_app in Ht as [Ht1 Ht2]. inversion Ht2; subst.
  rewrite run_snoc. eapply sessions_step_timing; [done | apply handle_sessions | auto].
Qed.

(** ** Successful requests, with their results *)

Lemma no_open_session_None tableId (m : gmap ObjectId Session.t) :
  (∀ i s, m !! i = Some s → Session.isOpen s = true → Session.table s ≠ tableId) →
  getActiveSession tableId m = None.
Proof.
  intros H. destruct (getActiveSession tableId m) as [[i s]|] eqn:E; [|done].
  apply getActiveSession_Some in E as (Hi & Ht & Ho). by destruct (H i s Hi Ho).
Qed.

Lemma startSession_ok db user now tableId newId table :
  tables db !! tableId = Some table →
  Table.owner table = user →
  Table.status table = Table.active →
  Table.isOccupied table = false →
  (∀ i s, sessions db !! i = Some s → Session.isOpen s = true →
          Session.table s ≠ tableId) →
  sessions db !! newId = None →
  SessionController.startSession db user now tableId newId =
  (ok 201 "Session started successfully!",
   {| tables :=
        <[tableId := Table.set_currentBooking (Some newId)
                       (Table.set_isOccupied true table)]> (tables db);
      sessions :=
        <[newId := SessionController.sessionData user now tableId table]> (sessions db);
      products := products db |}).
Proof.
  intros Ht Ho Hs Hocc Hfree Hnew. unfold SessionController.startSession.
  rewrite Ht, Ho, Pos.eqb_refl, Hs, Hocc, (no_open_session_None _ _ Hfree), Hnew.
  reflexivity.
Qed.

Lemma pauseSession_ok db user now sid s :
  sessions db !! sid = Some s → Session.owner s = user →
  Session.status s = Session.active →
  SessionController.pauseSession db user now sid =
  (ok 200 "Session paused successfully",
   set_sessions (<[sid := paused_at now s]> (sessions db)) db).
Proof.
  intros Hs Ho Hst. unfold SessionController.pauseSession.
  rewrite Hs, Ho, Pos.eqb_refl, Hst. reflexivity.
Qed.

Lemma resumeSession_ok db user now sid s :
  sessions db !! sid = Some s → Session.owner s = user →
  Session.status s = Session.paused →
  SessionController.resumeSession db user now sid =
  (ok 200 "Session resumed successfully",
   set_sessions (<[sid := resumed_at now s]> (sessions db)) db).
Proof.
  intros Hs Ho Hst. unfold SessionController.resumeSession.
  rewrite Hs, Ho, Pos.eqb_refl, Hst. reflexivity.
Qed.

Lemma confirmPayment_credit_ok db user now sid s pm tx pn :
  sessions db !! sid = Some s → Session.owner s = user →
  Session.isOpen s = true →
  SessionController.confirmPayment db user now sid "credit" pm tx pn =
  (ok 200 "Payment credited successfully!",
   set_sessions
     (<[sid := Session.markAsCredit (credit_note pn) (Session.updateTotalCost now s)]>
        (sessions db)) db).
Proof.
  intros Hs Ho Hop. unfold SessionController.confirmPayment.
  rewrite Hs, Ho, Pos.eqb_refl, Hop. cbn. unfold set_sessions. cbn.
  by rewrite insert_insert_eq.
Qed.



Lemma endSession_pending db user now sid s :
  sessions db !! sid = Some s → Session.owner s = user →
  Session.isOpen s = true →
  Session.paymentStatus s = Session.pending →
  SessionController.endSession db user now sid =
  ({| statusCode := 400; success := false;
      message := "Payment confirmation required before ending session";
      requiresPaymentConfirmation := true;
      sessionCost := Some (Session.calculateCurrentCost now s) |}, db).
Proof.
  intros Hs Ho Hop Hp. unfold SessionController.endSession.
  rewrite Hs, Ho, Pos.eqb_refl, Hop, Hp. reflexivity.
Qed.

Lemma endSession_ok db user now sid s :
  sessions db !! sid = Some s → Session.owner s = user →
  Session.isOpen s = true →
  Session.paymentStatus s ≠ Session.pending →
  SessionController.endSession db user now sid =
  (ok 200 "Session ended successfully",
   {| tables := free_table (Session.table s) (tables db);
      sessions := <[sid := Session.updateTotalCost now (ended_at now s)]> (sessions db);
      products := products db |}).
Proof.
  intros Hs Ho Hop Hp. unfold SessionController.endSession.
  rewrite Hs, Ho, Pos.eqb_refl, Hop. rewrite bool_decide_false by done. cbn zeta.
  fold (fold_pause now
          (Session.set_endTime (Some now) (Session.set_status Session.completed s))).
  fold (ended_at now s).
  destruct (updateTotalCost_core now (ended_at now s)) as (Ht & _).
  rewrite Ht.
  assert (Session.table (ended_at now s) = Session.table s) as ->.
  { destruct s. unfold ended_at, fold_pause. session_cbv. by destruct pausedAt. }
  unfold free_table. db_cbn. by destruct (tables db !! Session.table s).
Qed.

Lemma cancelSession_ok db user now sid s :
  sessions db !! sid = Some s → Session.owner s = user →
  Session.status s ≠ Session.completed →
  SessionController.cancelSession db user now sid =
  (ok 200 "Session cancelled successfully",
   {| tables := free_table (Session.table s) (tables db);
      sessions := <[sid := cancelled_at now s]> (sessions db);
      products := SessionController.restoreStock (Session.items s) (products db) |}).
Proof.
  intros Hs Ho Hst. unfold SessionController.cancelSession.
  rewrite Hs, Ho, Pos.eqb_refl. rewrite bool_decide_false by done. cbn zeta.
  fold (cancelled_at now s).
  assert (Session.table (cancelled_at now s) = Session.table s) as -> by by destruct s.
  unfold free_table. db_cbn. by destruct (tables db !! Session.table s).
Qed.

Lemma cancelSession_completed db user now sid s :
  sessions db !! sid = Some s → Session.owner s = user →
  Session.status s = Session.completed →
  SessionController.cancelSession db user now sid =
  (fail 400 "Cannot cancel completed sessions", db).
Proof.
  intros Hs Ho Hst. unfold SessionController.cancelSession.
  rewrite Hs, Ho, Pos.eqb_refl, Hst. reflexivity.
Qed.

(** ** Elapsed time *)

Lemma duration_core now s s' :
  same_core s s' →
  Session.getDurationInMinutes now s' = Session.getDurationInMinutes now s.
Proof.
  intros (_ & _ & Hst & Hs & He & Hp & Ht).
  unfold Session.getDurationInMinutes. by rewrite Hst, Hs, He, Hp, Ht.
Qed.

Lemma duration_spec now s :
  timing_ok s → Session.getDurationInMinutes now s = spec_elapsed_minutes now s.
Proof.
  intros [Hopen Hz].
  unfold Session.getDurationInMinutes, spec_elapsed_minutes.
  change (1000 * 60) with 60000.
  destruct (Session.status s) eqn:Hst.
  - rewrite Hopen by (apply isOpen_status; auto). reflexivity.
  - rewrite Hopen by (apply isOpen_status; auto). cbn. by destruct (Session.pausedAt s).
  - cbn. destruct (Session.endTime s) as [e|]; [|done].
    destruct (Z.eqb_spec e 0) as [->|]; [done|]. by destruct (Session.pausedAt s).
  - cbn. destruct (Session.endTime s) as [e|]; [|done].
    destruct (Z.eqb_spec e 0) as [->|]; [done|]. by destruct (Session.pausedAt s).
Qed.

Lemma markAsCredit_status n s :
  Session.paymentStatus (Session.markAsCredit n s) = Session.credit.
Proof. by destruct s. Qed.

Lemma markAsCredit_payments n s :
  Session.payments (Session.markAsCredit n s) = Session.payments s.
Proof. by destruct s. Qed.

Lemma paused_at_fields now s :
  let s' := paused_at now s in
  Session.status s' = Session.paused ∧ Session.pausedAt s' = Some now ∧
  Session.owner s' = Session.owner s ∧ Session.startTime s' = Session.startTime s ∧
  Session.endTime s' = Session.endTime s ∧
  Session.totalPausedTime s' = Session.totalPausedTime s.
Proof. by destruct s. Qed.

Lemma resumed_at_fields now s :
  let s' := resumed_at now s in
  Session.status s' = Session.active ∧ Session.pausedAt s' = None ∧
  Session.owner s' = Session.owner s ∧ Session.startTime s' = Session.startTime s ∧
  Session.endTime s' = Session.endTime s ∧
  Session.totalPausedTime s' =
    Session.totalPausedTime s +
    match Session.pausedAt s with Some p => now - p | None => 0 end.
Proof.
  destruct s. unfold resumed_at, fold_pause. session_cbv.
  destruct pausedAt; split_and!; try reflexivity. lia.
Qed.

Lemma ended_at_fields now s :
  let s' := ended_at now s in
  Session.status s' = Session.completed ∧ Session.pausedAt s' = None ∧
  Session.owner s' = Session.owner s ∧ Session.startTime s' = Session.startTime s ∧
  Session.endTime s' = Some now ∧
  Session.payments s' = Session.payments s ∧
  Session.totalPausedTime s' =
    Session.totalPausedTime s +
    match Session.pausedAt s with Some p => now - p | None => 0 end.
Proof.
  destruct s. unfold ended_at, fold_pause. session_cbv.
  destruct pausedAt; split_and!; try reflexivity. lia.
Qed.

Lemma pause_resume_end_scenario db user T0 tableId newId table pm tx pn :
  0 ≤ T0 →
  tables db !! tableId = Some table →
  Table.owner table = user →
  Table.status table = Table.active →
  Table.isOccupied table = false →
  (∀ i s, sessions db !! i = Some s → Session.isOpen s = true →
          Session.table s ≠ tableId) →
  sessions db !! newId = None →
  ∃ s, sessions
         (run db [ (user, T0, StartSession tableId newId);
                   (user, T0 + 10 * 60000, Pause newId);
                   (user, T0 + 20 * 60000, Resume newId);
                   (user, T0 + 30 * 60000, ConfirmPayment newId "credit" pm tx pn);
                   (user, T0 + 30 * 60000, EndSession newId) ]) !! newId = Some s ∧
       Session.status s = Session.completed ∧
       Session.totalPausedTime s = 10 * 60000 ∧
       ∀ now, Session.getDurationInMinutes now s = 20.
Proof.
  intros HT0 Ht Ho Hst Hocc Hfree Hnew.
  cbn [run fold_left handle fst snd].
  rewrite (startSession_ok _ _ _ _ _ _ Ht Ho Hst Hocc Hfree Hnew). db_cbn.
  set (s0 := SessionController.sessionData user T0 tableId table).
  erewrite (pauseSession_ok _ _ _ _ s0);
    [| db_cbn; apply lookup_insert_eq | reflexivity | reflexivity].
  db_cbn. rewrite insert_insert_eq.
  set (s1 := paused_at (T0 + 10 * 60000) s0).
  erewrite (resumeSession_ok _ _ _ _ s1);
    [| db_cbn; apply lookup_insert_eq | reflexivity | reflexivity].
  db_cbn. rewrite insert_insert_eq.
  set (s2 := resumed_at (T0 + 20 * 60000) s1).
  assert (H2 : Session.status s2 = Session.active ∧ Session.pausedAt s2 = None ∧
               Session.owner s2 = user ∧ Session.startTime s2 = T0 ∧
               Session.endTime s2 = None ∧ Session.totalPausedTime s2 = 10 * 60000).
  { subst s2 s1 s0.
    unfold resumed_at, fold_pause, paused_at, SessionController.sessionData.
    session_cbv. split_and!; try reflexivity. lia. }
  destruct H2 as (St2 & Pa2 & Ow2 & Sta2 & En2 & Tp2).
  erewrite (confirmPayment_credit_ok _ _ _ _ s2);
    [| db_cbn; apply lookup_insert_eq | exact Ow2 | apply isOpen_status; auto].
  db_cbn. rewrite insert_insert_eq.
  set (s3 := Session.markAsCredit _ _).
  assert (C3 : same_core s2 s3).
  { eapply same_core_trans; [apply updateTotalCost_core | apply markAsCredit_core]. }
  pose proof (same_core_isOpen _ _ C3) as Op3.
  destruct C3 as (_ & Ow3 & St3 & Sta3 & En3 & Pa3 & Tp3).
  erewrite (endSession_ok _ _ _ _ s3);
    [| db_cbn; apply lookup_insert_eq | congruence
     | rewrite Op3; apply isOpen_status; auto
     | subst s3; by rewrite markAsCredit_status].
  db_cbn. rewrite insert_insert_eq, lookup_insert_eq.
  eexists. split; [reflexivity|].
  pose proof (updateTotalCost_core (T0 + 30 * 60000) (ended_at (T0 + 30 * 60000) s3)) as C4.
  destruct (ended_at_fields (T0 + 30 * 60000) s3) as (St4 & Pa4 & Ow4 & Sta4 & En4 & _ & Tp4).
  split; [destruct C4 as (_ & _ & -> & _); exact St4|].
  split; [destruct C4 as (_ & _ & _ & _ & _ & _ & ->); rewrite Tp4, Pa3, Pa2, Tp3, Tp2; lia|].
  intros now. rewrite (duration_core _ _ _ C4).
  unfold Session.getDurationInMinutes.
  rewrite St4, Sta4, En4, Pa4, Tp4, Pa3, Pa2, Tp3, Tp2, Sta3, Sta2. cbn.
  destruct (Z.eqb_spec (T0 + 30 * 60000) 0) as [?|_]; [lia|].
  rewrite !bool_decide_eq_false_2 by done.
  replace (T0 + 30 * 60000 - T0 - (10 * 60000 + 0) - 0) with (20 * 60000) by lia.
  reflexivity.
Qed.

Lemma resume_adds_pause db user now sid s p :
  sessions db !! sid = Some s → Session.owner s = user →
  Session.status s = Session.paused → Session.pausedAt s = Some p →
  ∃ s', sessions (SessionController.resumeSession db user now sid).2 !! sid = Some s' ∧
        Session.status s' = Session.active ∧ Session.pausedAt s' = None ∧
        Session.totalPausedTime s' = Session.totalPausedTime s + (now - p).
Proof.
  intros Hs Ho Hst Hp. rewrite (resumeSession_ok _ _ _ _ _ Hs Ho Hst). db_cbn.
  rewrite lookup_insert_eq. eexists. split; [reflexivity|].
  destruct (resumed_at_fields now s) as (H1 & H2 & _ & _ & _ & H3).
  rewrite H1, H2, H3, Hp. done.
Qed.

(** C2: on every stored session the reported duration is the spec's
    elapsed-time formula; a session started at [T0], paused at
    [T0+10min], resumed at [T0+20min] and ended at [T0+30min] reports 20
    minutes; and resuming adds exactly [now - pausedAt] to the
    cumulative paused time. *)
Theorem C2_duration_excludes_paused_time :
  (∀ now s, timing_ok s →
            Session.getDurationInMinutes now s = spec_elapsed_minutes now s) ∧
  (∀ db user T0 tableId newId table pm tx pn,
     0 ≤ T0 →
     tables db !! tableId = Some table →
     Table.owner table = user →
     Table.status table = Table.active →
     Table.isOccupied table = false →
     (∀ i s, sessions db !! i = Some s → Session.isOpen s = true →
             Session.table s ≠ tableId) →
     sessions db !! newId = None →
     ∃ s, sessions
            (run db [ (user, T0, StartSession tableId newId);
                      (user, T0 + 10 * 60000, Pause newId);
                      (user, T0 + 20 * 60000, Resume newId);
                      (user, T0 + 30 * 60000, ConfirmPayment newId "credit" pm tx pn);
                      (user, T0 + 30 * 60000, EndSession newId) ]) !! newId = Some s ∧
          Session.status s = Session.completed ∧
          Session.totalPausedTime s = 10 * 60000 ∧
          ∀ now, Session.getDurationInMinutes now s = 20) ∧
  (∀ db user now sid s p,
     sessions db !! sid = Some s → Session.owner s = user →
     Session.status s = Session.paused → Session.pausedAt s = Some p →
     ∃ s', sessions (SessionController.resumeSession db user now sid).2 !! sid = Some s' ∧
           Session.status s' = Session.active ∧ Session.pausedAt s' = None ∧
           Session.totalPausedTime s' = Session.totalPausedTime s + (now - p)).
Proof.
  split_and!.
  - apply duration_spec.
  - apply pause_resume_end_scenario.
  - apply resume_adds_pause.
Qed.

(** ** The claims on billing and payment *)

(** C1: on a per-minute table stored at 100 per hour, a session with two
    units selling at 80 costs, after 30 active minutes, 30 times the
    hourly rate plus 160, that is 3160 and not about 210: the session
    snapshot copies the table's hourly rate into [minuteRate], which
    [calculateGameCost] charges per minute, while the table's own
    [calculateCost] charges the hourly rate divided by 60 (50 for the
    same 30 minutes). *)
Theorem C1_session_bills_hourly_rate_per_minute :
  ∃ s, sessions Example.db_two_chips !! 10%positive = Some s ∧
       Session.minuteRate s = Some (Table.hourlyRate Example.table_pm) ∧
       (Session.totalItemsRevenue s == 160)%Q ∧
       Session.getDurationInMinutes Example.T30 s = 30 ∧
       (Session.calculateCurrentCost Example.T30 s == 3160)%Q ∧
       ¬ (Session.calculateCurrentCost Example.T30 s
          == 30 * (100 / 60) + 2 * 80)%Q ∧
       ∃ c, Table.calculateCost 30 0 0 Example.table_pm = Some c ∧ (c == 50)%Q.
Proof.
  eexists. split; [vm_compute; reflexivity|].
  split_and!; try (vm_compute; reflexivity).
  - intros H. vm_compute in H. discriminate.
  - eexists. split; [vm_compute; reflexivity|]. vm_compute. reflexivity.
Qed.

(** C4 (failing input): a frame-and-kitti session with no frame played
    costs 0; confirming payment as paid succeeds but records a payment of
    0, the derived status stays pending, and the following [endSession]
    still fails with [requiresPaymentConfirmation]. *)
Theorem C4_paid_confirmation_of_zero_cost_session_still_blocks_end :
  let r2 := handle Example.db_fresh_fk Example.alice (Example.T0 + 5000)
              (ConfirmPayment 11%positive "paid" "cash" "" "") in
  let r3 := handle r2.2 Example.alice (Example.T0 + 6000) (EndSession 11%positive) in
  success r2.1 = true ∧
  Session.paymentStatus <$> sessions r2.2 !! 11%positive = Some Session.pending ∧
  success r3.1 = false ∧
  requiresPaymentConfirmation r3.1 = true ∧
  r3.2 = r2.2.
Proof. vm_compute. split_and!; reflexivity. Qed.

Lemma updateTotalCost_payment_derived now s :
  payment_derived (Session.updateTotalCost now s).
Proof. apply updatePaymentAmounts_payment_derived. Qed.

Lemma confirm_credit_then_end db user now1 now2 sid s pm tx pn :
  sessions db !! sid = Some s → Session.owner s = user →
  Session.isOpen s = true →
  let r1 := SessionController.confirmPayment db user now1 sid "credit" pm tx pn in
  let r2 := SessionController.endSession r1.2 user now2 sid in
  success r1.1 = true ∧
  (∃ s1, sessions r1.2 !! sid = Some s1 ∧ Session.paymentStatus s1 = Session.credit ∧
         Session.payments s1 = Session.payments s) ∧
  success r2.1 = true ∧
  ∃ s2, sessions r2.2 !! sid = Some s2 ∧ Session.status s2 = Session.completed ∧
        Session.endTime s2 = Some now2 ∧
        Session.payments s2 = Session.payments s ∧ payment_derived s2.
Proof.
  intros Hs Ho Hop. cbv zeta.
  rewrite (confirmPayment_credit_ok _ _ _ _ _ _ _ _ Hs Ho Hop). db_cbn.
  set (s1 := Session.markAsCredit _ _).
  assert (C1 : same_core s s1).
  { eapply same_core_trans; [apply updateTotalCost_core | apply markAsCredit_core]. }
  pose proof (same_core_isOpen _ _ C1) as Op1.
  assert (P1 : Session.payments s1 = Session.payments s).
  { subst s1. by rewrite markAsCredit_payments, updateTotalCost_payments. }
  assert (S1 : Session.paymentStatus s1 = Session.credit)
    by (subst s1; apply markAsCredit_status).
  erewrite (endSession_ok _ _ _ _ s1);
    [| db_cbn; apply lookup_insert_eq | destruct C1 as (_ & -> & _); exact Ho
     | congruence | by rewrite S1].
  db_cbn. rewrite !lookup_insert_eq.
  split; [done|]. split; [by exists s1|].
  split; [done|]. eexists. split; [reflexivity|].
  destruct (updateTotalCost_core now2 (ended_at now2 s1)) as (_ & _ & -> & _ & -> & _).
  destruct (ended_at_fields now2 s1) as (-> & _ & _ & _ & -> & Hp & _).
  rewrite updateTotalCost_payments, Hp, P1.
  split_and!; try done. apply updateTotalCost_payment_derived.
Qed.

(** C9: a session marked as credit with an empty payments list can be
    ended, and the completed session comes out with payment status
    pending: the recompute inside [endSession] derives the status from a
    paid total of 0. *)
Theorem C9_forced_credit_reverts_to_pending_on_end
    db user now1 now2 sid s pm tx pn :
  sessions db !! sid = Some s → Session.owner s = user →
  Session.isOpen s = true →
  Session.payments s = [] →
  let r1 := SessionController.confirmPayment db user now1 sid "credit" pm tx pn in
  let r2 := SessionController.endSession r1.2 user now2 sid in
  success r1.1 = true ∧
  (∃ s1, sessions r1.2 !! sid = Some s1 ∧ Session.paymentStatus s1 = Session.credit ∧
         Session.payments s1 = []) ∧
  success r2.1 = true ∧
  ∃ s2, sessions r2.2 !! sid = Some s2 ∧ Session.status s2 = Session.completed ∧
        Session.paymentStatus s2 = Session.pending.
Proof.
  intros Hs Ho Hop Hp.
  destruct (confirm_credit_then_end db user now1 now2 sid s pm tx pn Hs Ho Hop)
    as (H1 & (s1 & Hs1 & Hc1 & Hp1) & H2 & (s2 & Hs2 & Hst2 & _ & Hp2 & Hd2)).
  cbv zeta. split; [done|]. split; [exists s1; by rewrite <- Hp|].
  split; [done|]. exists s2. split_and!; try done.
  destruct Hd2 as (_ & _ & ->). by rewrite Hp2, Hp.
Qed.

(** ** The claims on cancellation, stock and table occupancy *)

Lemma cancelled_at_fields now s :
  let s' := cancelled_at now s in
  Session.status s' = Session.cancelled ∧ Session.endTime s' = Some now ∧
  Session.paymentStatus s' = Session.pending ∧ Session.paymentMethod s' = None ∧
  Session.paymentMethodLabel s' = None ∧ Session.totalPaidAmount s' = 0%Q ∧
  Session.remainingAmount s' = 0%Q ∧ Session.payments s' = [] ∧
  Session.items s' = Session.items s ∧ Session.owner s' = Session.owner s ∧
  Session.table s' = Session.table s.
Proof. by destruct s. Qed.

(** A successful cancel, in full: every stored product gains the units
    the session's items hold of it, the session is reset, the table is
    freed. *)
Lemma cancelSession_effect db user now sid s :
  sessions db !! sid = Some s → Session.owner s = user →
  Session.status s ≠ Session.completed →
  let r := SessionController.cancelSession db user now sid in
  success r.1 = true ∧
  sessions r.2 !! sid = Some (cancelled_at now s) ∧
  ∀ pid p, products db !! pid = Some p →
    ∃ p', products r.2 !! pid = Some p' ∧
          Product.currentStock p' =
            Product.currentStock p + units_of pid (Session.items s).
Proof.
  intros Hs Ho Hst. cbv zeta. rewrite (cancelSession_ok _ _ _ _ _ Hs Ho Hst). db_cbn.
  split; [done|]. split; [apply lookup_insert_eq|].
  intros pid p Hp. rewrite restoreStock_lookup, Hp. simpl. eauto.
Qed.

(** C5: cancelling a non-completed session that holds 3 units of product
    A succeeds, adds 3 to A's stock, marks the session cancelled with its
    end time set, and resets the payment fields, whatever payments were
    recorded. *)
Theorem C5_cancel_restores_stock_and_resets_payment
    db user now sid s item productA pA :
  sessions db !! sid = Some s → Session.owner s = user →
  Session.status s ≠ Session.completed →
  Session.items s = [item] →
  SessionItem.product item = productA → SessionItem.quantity item = 3 →
  products db !! productA = Some pA →
  let r := SessionController.cancelSession db user now sid in
  success r.1 = true ∧
  (∃ pA', products r.2 !! productA = Some pA' ∧
          Product.currentStock pA' = Product.currentStock pA + 3) ∧
  ∃ s', sessions r.2 !! sid = Some s' ∧
        Session.status s' = Session.cancelled ∧ Session.endTime s' = Some now ∧
        Session.paymentStatus s' = Session.pending ∧
        Session.totalPaidAmount s' = 0%Q ∧ Session.remainingAmount s' = 0%Q ∧
        Session.payments s' = [].
Proof.
  intros Hs Ho Hst Hi Hpr Hq HA.
  destruct (cancelSession_effect db user now sid s Hs Ho Hst) as (H1 & H2 & H3).
  cbv zeta. split; [done|]. split.
  - destruct (H3 _ _ HA) as (p' & Hp' & Hst').
    exists p'. split; [done|]. rewrite Hst', Hi. simpl. rewrite Hpr, Pos.eqb_refl. lia.
  - exists (cancelled_at now s). split; [done|].
    destruct (cancelled_at_fields now s) as (? & ? & ? & _ & _ & ? & ? & ? & _).
    done.
Qed.

(** C10: for an existing session of the caller, [cancelSession] fails
    exactly when the status is completed; on an already cancelled
    session it succeeds again and adds the item quantities to the stock
    once more, so cancelling twice adds them twice. *)
Theorem C10_repeated_cancel_restores_stock_again :
  (∀ db user now sid s,
     sessions db !! sid = Some s → Session.owner s = user →
     (success (SessionController.cancelSession db user now sid).1 = false ↔
      Session.status s = Session.completed)) ∧
  (∀ db user now sid s,
     sessions db !! sid = Some s → Session.owner s = user →
     Session.status s = Session.cancelled →
     let r := SessionController.cancelSession db user now sid in
     success r.1 = true ∧
     (∃ s', sessions r.2 !! sid = Some s' ∧ Session.status s' = Session.cancelled ∧
            Session.items s' = Session.items s) ∧
     ∀ pid p, products db !! pid = Some p →
       ∃ p', products r.2 !! pid = Some p' ∧
             Product.currentStock p' =
               Product.currentStock p + units_of pid (Session.items s)) ∧
  (∀ db user now1 now2 sid s,
     sessions db !! sid = Some s → Session.owner s = user →
     Session.status s ≠ Session.completed →
     let r1 := SessionController.cancelSession db user now1 sid in
     let r2 := SessionController.cancelSession r1.2 user now2 sid in
     success r1.1 = true ∧ success r2.1 = true ∧
     ∀ pid p, products db !! pid = Some p →
       ∃ p', products r2.2 !! pid = Some p' ∧
             Product.currentStock p' =
               Product.currentStock p + 2 * units_of pid (Session.items s)).
Proof.
  split_and!.
  - intros db user now sid s Hs Ho. split.
    + intros Hf. destruct (decide (Session.status s = Session.completed)) as [|Hn]; [done|].
      rewrite (cancelSession_ok _ _ _ _ _ Hs Ho Hn) in Hf. done.
    + intros Hc. by rewrite (cancelSession_completed _ _ _ _ _ Hs Ho Hc).
  - intros db user now sid s Hs Ho Hst.
    assert (Hn : Session.status s ≠ Session.completed) by (by rewrite Hst).
    destruct (cancelSession_effect db user now sid s Hs Ho Hn) as (H1 & H2 & H3).
    cbv zeta. split; [done|]. split; [|done].
    exists (cancelled_at now s). split; [done|].
    destruct (cancelled_at_fields now s) as (? & _ & _ & _ & _ & _ & _ & _ & ? & _).
    done.
  - intros db user now1 now2 sid s Hs Ho Hn. cbv zeta.
    destruct (cancelSession_effect db user now1 sid s Hs Ho Hn) as (H1 & H2 & H3).
    destruct (cancelled_at_fields now1 s)
      as (Hst & _ & _ & _ & _ & _ & _ & _ & Hit & How & _).
    assert (Hn2 : Session.status (cancelled_at now1 s) ≠ Session.completed)
      by (by rewrite Hst).
    destruct (cancelSession_effect _ user now2 sid _ H2 (eq_trans How Ho) Hn2)
      as (H4 & _ & H6).
    split; [done|]. split; [done|].
    intros pid p Hp. destruct (H3 _ _ Hp) as (p1 & Hp1 & E1).
    destruct (H6 _ _ Hp1) as (p2 & Hp2 & E2).
    exists p2. split; [done|]. rewrite E2, E1, Hit. lia.
Qed.

Lemma run_products_nonneg db trace :
  stock_ok db →
  ∀ pid p, products (run db trace) !! pid = Some p → 0 ≤ Product.currentStock p.
Proof. intros H. apply (run_stock_ok db trace H). Qed.

(** C6: 'subtract' stores [max 0 (stock - quantity)], 'set' stores
    [max 0 quantity], 'add' increments; and from a ledger with no
    negative stock and no negative item quantity, no run of requests
    (item additions and removals, stock updates, or any other request)
    ever leaves a product with negative stock. *)
Theorem C6_stock_never_negative :
  (∀ q p, Product.currentStock (Product.updateStock q "subtract" p) =
          Z.max 0 (Product.currentStock p - q)) ∧
  (∀ q p, Product.currentStock (Product.updateStock q "set" p) = Z.max 0 q) ∧
  (∀ q p, Product.currentStock (Product.updateStock q "add" p) =
          Product.currentStock p + q) ∧
  (∀ db trace, stock_ok db →
     ∀ pid p, products (run db trace) !! pid = Some p → 0 ≤ Product.currentStock p).
Proof.
  split_and!; [reflexivity | reflexivity | reflexivity | apply run_products_nonneg].
Qed.

Lemma startSession_rejects db user now tableId newId :
  (∀ table, tables db !! tableId = Some table →
     Table.status table = Table.active ∧ Table.isOccupied table = false ∧
     ∀ i s, sessions db !! i = Some s → Session.isOpen s = true →
            Session.table s ≠ tableId) ∨
  (success (SessionController.startSession db user now tableId newId).1 = false ∧
   (SessionController.startSession db user now tableId newId).2 = db).
Proof.
  unfold SessionController.startSession.
  destruct (tables db !! tableId) as [table|] eqn:Ht; [|by right].
  destruct (negb (Pos.eqb (Table.owner table) user)); [by right|].
  destruct (bool_decide_reflect (Table.status table = Table.active)); [|by right].
  cbn. destruct (Table.isOccupied table) eqn:Hocc; [by right|].
  destruct (getActiveSession tableId (sessions db)) as [[i s]|] eqn:Ha; [by right|].
  left. intros ? [= <-]. split_and!; try done.
  intros i s Hi Ho. by eapply getActiveSession_None.
Qed.

(** C7: [startSession] fails, changing nothing, when the table is not
    active, is occupied, or already has an active or paused session; and
    every run of requests keeps at most one open session per table. *)
Theorem C7_at_most_one_open_session_per_table :
  (∀ db user now tableId newId table,
     tables db !! tableId = Some table →
     (Table.status table ≠ Table.active ∨ Table.isOccupied table = true ∨
      ∃ i s, sessions db !! i = Some s ∧ Session.table s = tableId ∧
             Session.isOpen s = true) →
     success (SessionController.startSession db user now tableId newId).1 = false ∧
     (SessionController.startSession db user now tableId newId).2 = db) ∧
  (∀ db trace, one_open_session_per_table db →
               one_open_session_per_table (run db trace)).
Proof.
  split.
  - intros db user now tableId newId table Ht Hbad.
    destruct (startSession_rejects db user now tableId newId) as [Hok|Hrej]; [|done].
    destruct (Hok _ Ht) as (Hs & Hocc & Hfree).
    destruct Hbad as [?|[?|(i & s & Hi & Htab & Ho)]]; [done | congruence |].
    by destruct (Hfree i s Hi Ho).
  - apply run_one_open.
Qed.

(** ** The theorems at concrete inputs *)

Lemma stock_ok_check db :
  bool_decide (map_Forall (λ _ p, 0 ≤ Product.currentStock p) (products db)) = true →
  bool_decide
    (map_Forall (λ _ s, Forall (λ item, 0 ≤ SessionItem.quantity item) (Session.items s))
       (sessions db)) = true →
  stock_ok db.
Proof.
  intros H1%bool_decide_eq_true H2%bool_decide_eq_true. split.
  - exact H1.
  - intros sid s item Hs Hi. specialize (H2 _ _ Hs). rewrite Forall_forall in H2. auto.
Qed.

Lemma one_open_empty db : sessions db = ∅ → one_open_session_per_table db.
Proof. intros H i j si sj Hi. by rewrite H, lookup_empty in Hi. Qed.

Lemma C2_witness :
  Session.getDurationInMinutes Example.T30 Example.session_paused =
    spec_elapsed_minutes Example.T30 Example.session_paused ∧
  (∃ s, sessions
          (run Example.db0
             [ (Example.alice, Example.T0, StartSession 1%positive 10%positive);
               (Example.alice, Example.T0 + 10 * 60000, Pause 10%positive);
               (Example.alice, Example.T0 + 20 * 60000, Resume 10%positive);
               (Example.alice, Example.T0 + 30 * 60000,
                ConfirmPayment 10%positive "credit" "" "" "");
               (Example.alice, Example.T0 + 30 * 60000, EndSession 10%positive) ])
          !! 10%positive = Some s ∧
        Session.status s = Session.completed ∧
        Session.totalPausedTime s = 10 * 60000 ∧
        ∀ now, Session.getDurationInMinutes now s = 20) ∧
  (∃ s', sessions
           (SessionController.resumeSession Example.db_paused Example.alice
              (Example.T0 + 25 * 60000) 10%positive).2 !! 10%positive = Some s' ∧
         Session.status s' = Session.active ∧ Session.pausedAt s' = None ∧
         Session.totalPausedTime s' =
           Session.totalPausedTime Example.session_paused +
           (Example.T0 + 25 * 60000 - (Example.T0 + 10 * 60000))).
Proof.
  destruct C2_duration_excludes_paused_time as (Ha & Hb & Hc).
  split_and!.
  - apply Ha. split; [intros _; reflexivity | discriminate].
  - apply (Hb Example.db0 Example.alice Example.T0 1%positive 10%positive
             Example.table_pm "" "" "");
      [ vm_compute; discriminate | reflexivity | reflexivity | reflexivity | reflexivity
      | intros i s H; vm_compute in H; discriminate | reflexivity ].
  - apply (Hc Example.db_paused Example.alice (Example.T0 + 25 * 60000) 10%positive
             Example.session_paused (Example.T0 + 10 * 60000));
      [ vm_compute; reflexivity | reflexivity | reflexivity | vm_compute; reflexivity ].
Defined.


Lemma C5_witness :
  let r := SessionController.cancelSession Example.db_paid_100 Example.alice
             Example.T30 10%positive in
  success r.1 = true ∧
  (∃ pA', products r.2 !! 7%positive = Some pA' ∧
          Product.currentStock pA' = 7 + 3) ∧
  ∃ s', sessions r.2 !! 10%positive = Some s' ∧
        Session.status s' = Session.cancelled ∧ Session.endTime s' = Some Example.T30 ∧
        Session.paymentStatus s' = Session.pending ∧
        Session.totalPaidAmount s' = 0%Q ∧ Session.remainingAmount s' = 0%Q ∧
        Session.payments s' = [].
Proof.
  eapply (C5_cancel_restores_stock_and_resets_payment
            Example.db_paid_100 Example.alice Example.T30 10%positive _ _ 7%positive
            (Product.set_currentStock 7 Example.chips));
    [ vm_compute; reflexivity | reflexivity | vm_compute; discriminate
    | vm_compute; reflexivity | reflexivity | reflexivity | vm_compute; reflexivity ].
Defined.

Lemma C6_witness :
  0 ≤ Product.currentStock
        (default Example.chips
           (products (run Example.db_paid_100 Example.stock_trace) !! 7%positive)).
Proof.
  destruct C6_stock_never_negative as (_ & _ & _ & H).
  refine (H Example.db_paid_100 Example.stock_trace _ 7%positive _ _).
  - apply stock_ok_check; vm_compute; reflexivity.
  - vm_compute. reflexivity.
Defined.

Lemma C7_witness :
  (success (SessionController.startSession Example.db_paused Example.alice Example.T30
              1%positive 11%positive).1 = false ∧
   (SessionController.startSession Example.db_paused Example.alice Example.T30
      1%positive 11%positive).2 = Example.db_paused) ∧
  one_open_session_per_table (run Example.db0 Example.booking_trace).
Proof.
  destruct C7_at_most_one_open_session_per_table as (Ha & Hb).
  split.
  - eapply Ha; [vm_compute; reflexivity|].
    right. right. exists 10%positive, Example.session_paused.
    split_and!; vm_compute; reflexivity.
  - apply Hb. by apply one_open_empty.
Defined.

Lemma C9_witness :
  let r1 := SessionController.confirmPayment Example.db_fresh_fk Example.alice
              (Example.T0 + 5000) 11%positive "credit" "" "" "" in
  let r2 := SessionController.endSession r1.2 Example.alice (Example.T0 + 6000)
              11%positive in
  success r1.1 = true ∧
  (∃ s1, sessions r1.2 !! 11%positive = Some s1 ∧
         Session.paymentStatus s1 = Session.credit ∧ Session.payments s1 = []) ∧
  success r2.1 = true ∧
  ∃ s2, sessions r2.2 !! 11%positive = Some s2 ∧
        Session.status s2 = Session.completed ∧
        Session.paymentStatus s2 = Session.pending.
Proof.
  eapply (C9_forced_credit_reverts_to_pending_on_end
            Example.db_fresh_fk Example.alice (Example.T0 + 5000) (Example.T0 + 6000)
            11%positive);
    [ vm_compute; reflexivity | reflexivity | reflexivity | reflexivity ].
Defined.

Lemma C10_witness :
  (success (SessionController.cancelSession Example.db_paid_100 Example.alice
              Example.T30 10%positive).1 = false ↔
   Session.status
     (default Example.session10 (sessions Example.db_paid_100 !! 10%positive)) =
   Session.completed) ∧
  (let r1 := SessionController.cancelSession Example.db_paid_100 Example.alice
               Example.T30 10%positive in
   let r2 := SessionController.cancelSession r1.2 Example.alice
               (Example.T30 + 1) 10%positive in
   success r1.1 = true ∧ success r2.1 = true ∧
   ∀ pid p, products Example.db_paid_100 !! pid = Some p →
     ∃ p', products r2.2 !! pid = Some p' ∧
           Product.currentStock p' =
             Product.currentStock p +
             2 * units_of pid
                   (Session.items
                      (default Example.session10
                         (sessions Example.db_paid_100 !! 10%positive)))).
Proof.
  destruct C10_repeated_cancel_restores_stock_again as (Ha & _ & Hc).
  split.
  - apply Ha; [vm_compute; reflexivity | reflexivity].
  - apply Hc; [vm_compute; reflexivity | reflexivity | vm_compute; discriminate].
Defined.

(** ** Failed requests *)




(** ** Reachable sessions and the elapsed-time formula *)

(** X2: in every store reached by requests handled at non-zero instants
    from a store of well-shaped sessions, the reported duration of every
    session is the elapsed-time formula of the specification. *)
Theorem X2_duration_formula_on_reachable_sessions db trace sid s now :
  Forall (fun x : ObjectId * Timestamp * Request => x.1.2 ≠ 0) trace →
  all_timing_ok db →
  sessions (run db trace) !! sid = Some s →
  Session.getDurationInMinutes now s = spec_elapsed_minutes now s.
Proof.
  intros Ht Hok Hs. apply duration_spec. by eapply (run_timing_ok db trace Ht Hok).
Qed.

Lemma X2_witness :
  Session.getDurationInMinutes Example.T30
    (default Example.session10
       (sessions (run Example.db0 Example.booking_trace) !! 10%positive)) =
  spec_elapsed_minutes Example.T30
    (default Example.session10
       (sessions (run Example.db0 Example.booking_trace) !! 10%positive)).
Proof.
  apply (X2_duration_formula_on_reachable_sessions
           Example.db0 Example.booking_trace 10%positive).
  - repeat constructor; vm_compute; discriminate.
  - intros sid s H. vm_compute in H. discriminate.
  - vm_compute. reflexivity.
Defined.

(** ** Ending a session *)

(** X3: [endSession] succeeds exactly when the session exists, belongs to
    the caller, is active or paused, and its stored payment status is
    not pending. *)
Theorem X3_endSession_succeeds_iff db user now sid :
  success (SessionController.endSession db user now sid).1 = true ↔
  ∃ s, sessions db !! sid = Some s ∧ Session.owner s = user ∧
       Session.isOpen s = true ∧ Session.paymentStatus s ≠ Session.pending.
Proof.
  split.
  - unfold SessionController.endSession.
    destruct (sessions db !! sid) as [s|]; [|done].
    destruct (Pos.eqb_spec (Session.owner s) user); [|done]. cbn.
    destruct (Session.isOpen s) eqn:Ho; [|done]. cbn.
    destruct (bool_decide_reflect (Session.paymentStatus s = Session.pending)); [done|].
    intros _. by exists s.
  - intros (s & Hs & Ho & Hop & Hp). by rewrite (endSession_ok _ _ _ _ _ Hs Ho Hop Hp).
Qed.

(** X4: after [confirmPayment] with status credit on an open session of
    the caller, [endSession] succeeds at any later instant; the session
    is completed with that end time, its payments list is untouched and
    its payment fields are re-derived from that list. *)
Theorem X4_credit_confirmation_unlocks_end db user now1 now2 sid s pm tx pn :
  sessions db !! sid = Some s → Session.owner s = user →
  Session.isOpen s = true →
  let r1 := SessionController.confirmPayment db user now1 sid "credit" pm tx pn in
  let r2 := SessionController.endSession r1.2 user now2 sid in
  success r1.1 = true ∧ success r2.1 = true ∧
  ∃ s2, sessions r2.2 !! sid = Some s2 ∧ Session.status s2 = Session.completed ∧
        Session.endTime s2 = Some now2 ∧
        Session.payments s2 = Session.payments s ∧ payment_derived s2.
Proof.
  intros Hs Ho Hop.
  destruct (confirm_credit_then_end db user now1 now2 sid s pm tx pn Hs Ho Hop)
    as (H1 & _ & H2 & H3).
  done.
Qed.

Lemma X4_witness :
  let r1 := SessionController.confirmPayment Example.db_paused Example.alice
              Example.T30 10%positive "credit" "" "" "pay on Friday" in
  let r2 := SessionController.endSession r1.2 Example.alice (Example.T30 + 1)
              10%positive in
  success r1.1 = true ∧ success r2.1 = true ∧
  ∃ s2, sessions r2.2 !! 10%positive = Some s2 ∧
        Session.status s2 = Session.completed ∧
        Session.endTime s2 = Some (Example.T30 + 1) ∧
        Session.payments s2 = Session.payments Example.session_paused ∧
        payment_derived s2.
Proof.
  apply X4_credit_confirmation_unlocks_end;
    [vm_compute; reflexivity | reflexivity | reflexivity].
Defined.




(** ** Terminal states *)









(** ** Pausing *)

(** X7: pausing an active session freezes its reported duration: at any
    later instant the paused session reports the duration it had when it
    was paused. *)
Theorem X7_pause_freezes_duration db user now sid s :
  sessions db !! sid = Some s → Session.owner s = user →
  Session.status s = Session.active →
  Session.endTime s = None →
  ∃ s', sessions (SessionController.pauseSession db user now sid).2 !! sid = Some s' ∧
        Session.status s' = Session.paused ∧
        ∀ later, Session.getDurationInMinutes later s' =
                 Session.getDurationInMinutes now s.
Proof.
  intros Hs Ho Hst He. rewrite (pauseSession_ok _ _ _ _ _ Hs Ho Hst). db_cbn.
  rewrite lookup_insert_eq. eexists. split; [reflexivity|].
  destruct (paused_at_fields now s) as (H1 & H2 & _ & H3 & H4 & H5).
  split; [done|]. intros later. unfold Session.getDurationInMinutes.
  rewrite H1, H2, H3, H4, H5, He, Hst.
  repeat case_bool_decide; try done. f_equal. lia.
Qed.

Lemma X7_witness :
  ∃ s', sessions
          (SessionController.pauseSession Example.db_three_chips Example.alice
             (Example.T0 + 7 * Example.minute) 10%positive).2 !! 10%positive = Some s' ∧
        Session.status s' = Session.paused ∧
        ∀ later, Session.getDurationInMinutes later s' =
                 Session.getDurationInMinutes (Example.T0 + 7 * Example.minute)
                   Example.session10.
Proof.
  apply X7_pause_freezes_duration;
    [vm_compute; reflexivity | reflexivity | reflexivity | reflexivity].
Defined.

(** X8: ending a session while it is paused folds the open pause into
    the cumulative paused time, so the completed session reports, at any
    instant, the duration it had when it was paused; the time between
    the pause and the end is not billed. *)
Theorem X8_end_while_paused_bills_frozen_duration db user now sid s p :
  sessions db !! sid = Some s → Session.owner s = user →
  Session.status s = Session.paused →
  Session.pausedAt s = Some p →
  Session.endTime s = None →
  Session.paymentStatus s ≠ Session.pending →
  now ≠ 0 →
  ∃ s', sessions (SessionController.endSession db user now sid).2 !! sid = Some s' ∧
        Session.status s' = Session.completed ∧
        Session.pausedAt s' = None ∧
        Session.totalPausedTime s' = Session.totalPausedTime s + (now - p) ∧
        ∀ t t', Session.getDurationInMinutes t s' = Session.getDurationInMinutes t' s.
Proof.
  intros Hs Ho Hst Hp He Hpay Hnow.
  assert (Hop : Session.isOpen s = true) by (apply isOpen_status; auto).
  rewrite (endSession_ok _ _ _ _ _ Hs Ho Hop Hpay). db_cbn.
  rewrite lookup_insert_eq. eexists. split; [reflexivity|].
  pose proof (updateTotalCost_core now (ended_at now s)) as C.
  destruct (ended_at_fields now s) as (H1 & H2 & _ & H3 & H4 & _ & H5).
  rewrite Hp in H5.
  split; [destruct C as (_ & _ & -> & _); done|].
  split; [destruct C as (_ & _ & _ & _ & _ & -> & _); done|].
  split; [destruct C as (_ & _ & _ & _ & _ & _ & ->); done|].
  intros t t'. rewrite (duration_core _ _ _ C). unfold Session.getDurationInMinutes.
  rewrite H1, H2, H3, H4, H5, Hst, Hp, He.
  repeat case_bool_decide; try done.
  destruct (Z.eqb_spec now 0); [done|]. f_equal. lia.
Qed.

Lemma X8_witness :
  ∃ s', sessions
          (SessionController.endSession
             (SessionController.confirmPayment Example.db_paused Example.alice
                (Example.T0 + 12 * Example.minute) 10%positive "credit" "" "" "").2
             Example.alice Example.T30 10%positive).2 !! 10%positive = Some s' ∧
        Session.status s' = Session.completed ∧
        Session.pausedAt s' = None ∧
        Session.totalPausedTime s' =
          Session.totalPausedTime
            (Session.markAsCredit (credit_note "")
               (Session.updateTotalCost (Example.T0 + 12 * Example.minute)
                  Example.session_paused))
          + (Example.T30 - (Example.T0 + 10 * Example.minute)) ∧
        ∀ t t', Session.getDurationInMinutes t s' =
                Session.getDurationInMinutes t'
                  (Session.markAsCredit (credit_note "")
                     (Session.updateTotalCost (Example.T0 + 12 * Example.minute)
                        Example.session_paused)).
Proof.
  apply X8_end_while_paused_bills_frozen_duration;
    [ vm_compute; reflexivity | reflexivity | reflexivity | vm_compute; reflexivity
    | reflexivity | vm_compute; discriminate | vm_compute; discriminate ].
Defined.

(** ** Items and stock *)

Lemma addItemToSession_ok db user now sid pid q iid s p :
  1 ≤ q →
  sessions db !! sid = Some s → Session.owner s = user →
  Session.isOpen s = true →
  products db !! pid = Some p → Product.owner p = user →
  q ≤ Product.currentStock p →
  SessionController.addItemToSession db user now sid pid q iid =
  (ok 200 "Item added to session successfully!",
   {| tables := tables db;
      sessions :=
        <[sid := Session.addItem now
                   {| id_itemId := iid; id_product := pid;
                      id_productName := Product.name p; id_quantity := q;
                      id_costPrice := Product.costPrice p;
                      id_sellingPrice := Product.sellingPrice p |} s]> (sessions db);
      products :=
        <[pid := Product.set_currentStock (Product.currentStock p - q) p]> (products db) |}).
Proof.
  intros Hq Hs Ho Hop Hp Hpo Hst. unfold SessionController.addItemToSession.
  replace ((q =? 0) || (q <? 1)) with false by lia.
  rewrite Hs, Ho, Pos.eqb_refl, Hop, Hp, Hpo, Pos.eqb_refl. cbn.
  replace (Product.currentStock p <? q) with false by lia.
  unfold Product.updateStock. cbn. unfold set_products, set_sessions. cbn.
  repeat f_equal. lia.
Qed.

(** X9: [addItemToSession] succeeds exactly when the quantity is at
    least 1, the session exists, is the caller's and is open, and the
    product exists, is the caller's and has at least that many units in
    stock; it then takes exactly that many units from the stock and
    appends an item carrying the product's current name and prices. *)
Theorem X9_addItemToSession_succeeds_iff db user now sid pid q iid :
  success (SessionController.addItemToSession db user now sid pid q iid).1 = true ↔
  ∃ s p,
    1 ≤ q ∧
    sessions db !! sid = Some s ∧ Session.owner s = user ∧ Session.isOpen s = true ∧
    products db !! pid = Some p ∧ Product.owner p = user ∧
    q ≤ Product.currentStock p ∧
    (∃ p', products (SessionController.addItemToSession db user now sid pid q iid).2
             !! pid = Some p' ∧
           Product.currentStock p' = Product.currentStock p - q) ∧
    (∃ s', sessions (SessionController.addItemToSession db user now sid pid q iid).2
             !! sid = Some s' ∧
           Session.items s' = Session.items s ++ [item_snapshot now iid pid q p]).
Proof.
  split.
  - intros Hok.
    assert (∃ s p, 1 ≤ q ∧ sessions db !! sid = Some s ∧ Session.owner s = user ∧
                   Session.isOpen s = true ∧ products db !! pid = Some p ∧
                   Product.owner p = user ∧ q ≤ Product.currentStock p)
      as (s & p & Hq & Hs & Ho & Hop & Hp & Hpo & Hst).
    { revert Hok. unfold SessionController.addItemToSession.
      destruct ((q =? 0) || (q <? 1)) eqn:Eq; [done|].
      destruct (sessions db !! sid) as [s|]; [|done].
      destruct (Pos.eqb_spec (Session.owner s) user); [|done]. cbn.
      destruct (Session.isOpen s) eqn:Hop; [|done]. cbn.
      destruct (products db !! pid) as [p|]; [|done].
      destruct (Pos.eqb_spec (Product.owner p) user); [|done]. cbn.
      destruct (Product.currentStock p <? q) eqn:Est; [done|].
      intros _. exists s, p. split_and!; try done; lia. }
    exists s, p. split_and!; try done.
    + rewrite (addItemToSession_ok _ _ _ _ _ _ _ _ _ Hq Hs Ho Hop Hp Hpo Hst). cbn.
      rewrite lookup_insert_eq. by eexists.
    + rewrite (addItemToSession_ok _ _ _ _ _ _ _ _ _ Hq Hs Ho Hop Hp Hpo Hst). cbn.
      rewrite lookup_insert_eq. eexists. split; [reflexivity|].
      by rewrite addItem_items.
  - intros (s & p & Hq & Hs & Ho & Hop & Hp & Hpo & Hst & _).
    by rewrite (addItemToSession_ok _ _ _ _ _ _ _ _ _ Hq Hs Ho Hop Hp Hpo Hst).
Qed.

Lemma filter_fresh_id (items : list SessionItem.t) (iid : ObjectId) :
  (∀ item, item ∈ items → SessionItem._id item ≠ iid) →
  List.filter (fun item => negb (Pos.eqb (SessionItem._id item) iid)) items = items.
Proof.
  induction items as [|x items IH]; intros H; simpl; [done|].
  destruct (Pos.eqb_spec (SessionItem._id x) iid) as [E|_].
  - exfalso. apply (H x); [by left | done].
  - simpl. f_equal. apply IH. intros item Hi. apply H. by right.
Qed.

Lemma find_fresh_id (items : list SessionItem.t) (iid : ObjectId) x :
  (∀ item, item ∈ items → SessionItem._id item ≠ iid) →
  SessionItem._id x = iid →
  List.find (fun item => Pos.eqb (SessionItem._id item) iid) (items ++ [x]) = Some x.
Proof.
  intros H Hx. induction items as [|y items IH]; simpl.
  - by rewrite Hx, Pos.eqb_refl.
  - destruct (Pos.eqb_spec (SessionItem._id y) iid) as [E|_].
    + exfalso. apply (H y); [by left | done].
    + apply IH. intros item Hi. apply H. by right.
Qed.

(** X10: adding an item under an [_id] no item of the session carries
    and then removing that item puts the product collection back exactly
    as it was and leaves the session with its original items. *)
Theorem X10_add_then_remove_item_round_trip db user now1 now2 sid pid q iid s p :
  1 ≤ q →
  sessions db !! sid = Some s → Session.owner s = user →
  Session.isOpen s = true →
  products db !! pid = Some p → Product.owner p = user →
  q ≤ Product.currentStock p →
  (∀ item, item ∈ Session.items s → SessionItem._id item ≠ iid) →
  let r1 := SessionController.addItemToSession db user now1 sid pid q iid in
  let r2 := SessionController.removeItemFromSession r1.2 user now2 sid iid in
  success r1.1 = true ∧ success r2.1 = true ∧
  products r2.2 = products db ∧
  tables r2.2 = tables db ∧
  ∃ s2, sessions r2.2 !! sid = Some s2 ∧ Session.items s2 = Session.items s.
Proof.
  intros Hq Hs Ho Hop Hp Hpo Hst Hfresh. cbv zeta.
  rewrite (addItemToSession_ok _ _ _ _ _ _ _ _ _ Hq Hs Ho Hop Hp Hpo Hst). cbn [fst snd].
  set (d := {| id_itemId := iid; id_product := pid; id_productName := Product.name p;
               id_quantity := q; id_costPrice := Product.costPrice p;
               id_sellingPrice := Product.sellingPrice p |}).
  pose proof (addItem_core now1 d s) as C.
  pose proof (same_core_isOpen _ _ C) as Hop1.
  destruct C as (_ & Ho1 & _).
  unfold SessionController.removeItemFromSession. db_cbn.
  rewrite lookup_insert_eq, Ho1, Ho, Pos.eqb_refl, Hop1, Hop. cbn [negb].
  rewrite addItem_items.
  rewrite (find_fresh_id _ iid _ Hfresh) by reflexivity.
  cbn [SessionItem.product SessionItem.quantity]. db_cbn.
  rewrite lookup_insert_eq. db_cbn. rewrite lookup_insert_eq.
  split; [done|]. split; [done|]. split_and!.
  - rewrite insert_insert_eq. apply insert_id. rewrite Hp. f_equal.
    destruct p. unfold Product.updateStock, Product.set_currentStock. cbn. f_equal. lia.
  - done.
  - eexists. split; [reflexivity|].
    rewrite removeItem_items, addItem_items, List.filter_app. simpl.
    rewrite Pos.eqb_refl. simpl. rewrite app_nil_r. by apply filter_fresh_id.
Qed.

Lemma X10_witness :
  let r1 := SessionController.addItemToSession Example.db_three_chips Example.alice
              (Example.T0 + Example.minute) 10%positive 7%positive 4 101%positive in
  let r2 := SessionController.removeItemFromSession r1.2 Example.alice
              (Example.T0 + 2 * Example.minute) 10%positive 101%positive in
  success r1.1 = true ∧ success r2.1 = true ∧
  products r2.2 = products Example.db_three_chips ∧
  tables r2.2 = tables Example.db_three_chips ∧
  ∃ s2, sessions r2.2 !! 10%positive = Some s2 ∧
        Session.items s2 = Session.items Example.session10.
Proof.
  apply (X10_add_then_remove_item_round_trip Example.db_three_chips Example.alice
           (Example.T0 + Example.minute) (Example.T0 + 2 * Example.minute)
           10%positive 7%positive 4 101%positive Example.session10
           (Product.set_currentStock 7 Example.chips));
    [ lia | vm_compute; reflexivity | reflexivity | reflexivity | vm_compute; reflexivity
    | reflexivity | vm_compute; discriminate | ].
  intros item Hi. vm_compute in Hi.
  apply list_elem_of_singleton in Hi. subst item. vm_compute. discriminate.
Defined.

(** ** Payments *)




(** ** Lookup of the open session of a table *)

(** X12: [getActiveSession] returns nothing exactly when no stored
    session of the table is active or paused, and whatever it returns is
    a stored active or paused session of that table. *)
Theorem X12_getActiveSession_sound_complete tableId (coll : gmap ObjectId Session.t) :
  (getActiveSession tableId coll = None ↔
   ∀ i s, coll !! i = Some s → Session.isOpen s = true → Session.table s ≠ tableId) ∧
  (∀ i s, getActiveSession tableId coll = Some (i, s) →
          coll !! i = Some s ∧ Session.table s = tableId ∧ Session.isOpen s = true).
Proof.
  split.
  - split; [apply getActiveSession_None | apply no_open_session_None].
  - apply getActiveSession_Some.
Qed.

Lemma X3_witness :
  success (SessionController.endSession
             (SessionController.confirmPayment Example.db_paused Example.alice
                Example.T30 10%positive "credit" "" "" "").2
             Example.alice Example.T30 10%positive).1 = true.
Proof.
  apply X3_endSession_succeeds_iff. eexists.
  split_and!; [vm_compute; reflexivity | reflexivity | reflexivity | vm_compute; discriminate].
Defined.

Lemma X9_witness :
  success (SessionController.addItemToSession Example.db_paused Example.alice
             Example.T30 10%positive 7%positive 10 100%positive).1 = true.
Proof.
  apply X9_addItemToSession_succeeds_iff.
  exists Example.session_paused, Example.chips.
  split_and!; try (vm_compute; reflexivity); try (vm_compute; discriminate).
  - eexists. split; [vm_compute; reflexivity | reflexivity].
  - eexists. split; [vm_compute; reflexivity | reflexivity].
Defined.


Lemma X12_witness :
  getActiveSession 2%positive (sessions Example.db_paused) = None ∧
  sessions Example.db_paused !! 10%positive = Some Example.session_paused ∧
  Session.table Example.session_paused = 1%positive ∧
  Session.isOpen Example.session_paused = true.
Proof.
  destruct (X12_getActiveSession_sound_complete 2%positive (sessions Example.db_paused))
    as [[_ Ha] _].
  destruct (X12_getActiveSession_sound_complete 1%positive (sessions Example.db_paused))
    as [_ Hb].
  split.
  - apply Ha. intros i s Hi Ho Ht.
    assert (i = 10%positive ∧ s = Example.session_paused) as [-> ->].
    { change (sessions Example.db_paused)
        with (<[10%positive := Example.session_paused]> (∅ : gmap ObjectId Session.t)) in Hi.
      apply lookup_insert_Some in Hi as [[? ?]|[_ Hi]]; [done|].
      by rewrite lookup_empty in Hi. }
    vm_compute in Ht. discriminate.
  - apply Hb. vm_compute. reflexivity.
Defined.

(** ** The per-minute rate of a session *)



(** ** Cancelling again after the table was rebooked *)

(** X14: cancelling an already cancelled session whose table has since
    been booked by another session marks that table as free with no
    current booking, although the other session is still open; a new
    booking of the table is still refused, because the open session is
    found. *)
Theorem X14_repeated_cancel_frees_rebooked_table db user now a b sa sb tb :
  sessions db !! a = Some sa → Session.owner sa = user →
  Session.status sa = Session.cancelled →
  sessions db !! b = Some sb → Session.isOpen sb = true →
  Session.table sb = Session.table sa →
  tables db !! Session.table sa = Some tb →
  let r := SessionController.cancelSession db user now a in
  success r.1 = true ∧
  (∃ tb', tables r.2 !! Session.table sa = Some tb' ∧
          Table.isOccupied tb' = false ∧ Table.currentBooking tb' = None) ∧
  sessions r.2 !! b = Some sb ∧
  ∀ u now' newId,
    success (SessionController.startSession r.2 u now' (Session.table sa) newId).1 = false.
Proof.
  intros Ha Ho Hst Hb Hop Htab Ht. cbv zeta.
  assert (Hn : Session.status sa ≠ Session.completed) by (by rewrite Hst).
  assert (Hab : a ≠ b).
  { intros ->. rewrite Ha in Hb. injection Hb as ->.
    apply isOpen_status in Hop as [?|?]; congruence. }
  rewrite (cancelSession_ok _ _ _ _ _ Ha Ho Hn). cbn [fst snd].
  split; [done|]. split.
  { unfold free_table. db_cbn. rewrite Ht, lookup_insert_eq. by eexists. }
  split; [db_cbn; by rewrite lookup_insert_ne|].
  intros u now' newId.
  match goal with |- context [SessionController.startSession ?d _ _ _ _] =>
    destruct (startSession_rejects d u now' (Session.table sa) newId) as [Hok|[Hrej _]];
      [|exact Hrej]
  end.
  exfalso. revert Hok. unfold free_table. db_cbn. rewrite Ht. intros Hok.
  destruct (Hok _ (lookup_insert_eq _ _ _)) as (_ & _ & Hfree).
  apply (Hfree b sb); [by rewrite lookup_insert_ne | done | done].
Qed.

Lemma X14_witness :
  let db :=
    run Example.db0
      [ (Example.alice, Example.T0, StartSession 1%positive 10%positive);
        (Example.alice, Example.T0 + Example.minute, CancelSession 10%positive);
        (Example.alice, Example.T0 + 2 * Example.minute,
         StartSession 1%positive 11%positive) ] in
  let r := SessionController.cancelSession db Example.alice
             (Example.T0 + 3 * Example.minute) 10%positive in
  success r.1 = true ∧
  (∃ tb', tables r.2 !! 1%positive = Some tb' ∧
          Table.isOccupied tb' = false ∧ Table.currentBooking tb' = None) ∧
  sessions r.2 !! 11%positive =
    Some (SessionController.sessionData Example.alice
            (Example.T0 + 2 * Example.minute) 1%positive Example.table_pm) ∧
  ∀ u now' newId,
    success (SessionController.startSession r.2 u now' 1%positive newId).1 = false.
Proof.
  eapply (X14_repeated_cancel_frees_rebooked_table _ Example.alice _ 10%positive
            11%positive
            (cancelled_at (Example.T0 + Example.minute)
               (SessionController.sessionData Example.alice Example.T0 1%positive
                  Example.table_pm)));
    [ vm_compute; reflexivity | reflexivity | reflexivity | vm_compute; reflexivity
    | reflexivity | reflexivity | vm_compute; reflexivity ].
Defined.

(** ** The stock-adjustment endpoint *)



(** ** Frame and kitti counters *)

Lemma updateTotalCost_totals now s :
  let s' := Session.updateTotalCost now s in
  Session.frames s' = Session.frames s ∧ Session.kittis s' = Session.kittis s ∧
  Session.gameCost s' = Session.calculateGameCost now s ∧
  Session.totalCost s' = (Session.gameCost s' + Session.totalItemsRevenue s')%Q.
Proof. destruct s. session_cbv. payment_cases; by repeat split. Qed.

(** X16: on an open frame-and-kitti session the [update_frames_kittis]
    action stores the given counters clamped at zero, and the stored game
    cost becomes frames times frame rate plus kittis times kitti rate,
    the total cost being that plus the items revenue. *)
Theorem X16_frames_kittis_update db user now sid s f k :
  sessions db !! sid = Some s → Session.owner s = user →
  Session.isOpen s = true →
  Session.pricingMethod s = frame_kitti →
  let r := SessionController.updateSession db user now sid "update_frames_kittis"
             (Some f) (Some k) in
  success r.1 = true ∧
  ∃ s', sessions r.2 !! sid = Some s' ∧
        Session.frames s' = Z.max 0 f ∧ Session.kittis s' = Z.max 0 k ∧
        Session.gameCost s' =
          (inject_Z (Z.max 0 f) * Session.frameRate s
           + inject_Z (Z.max 0 k) * Session.kittiRate s)%Q ∧
        Session.totalCost s' = (Session.gameCost s' + Session.totalItemsRevenue s')%Q.
Proof.
  intros Hs Ho Hop Hpm. cbv zeta. unfold SessionController.updateSession.
  rewrite Hs, Ho, Pos.eqb_refl.
  apply isOpen_status in Hop.
  assert (negb (bool_decide (Session.status s = Session.active))
          && negb (bool_decide (Session.status s = Session.paused)) = false) as Hg.
  { destruct Hop as [->| ->]; reflexivity. }
  cbn [negb]. rewrite Hg. cbn [andb fst snd]. db_cbn. rewrite lookup_insert_eq.
  split; [done|]. eexists. split; [reflexivity|].
  change (SessionController.applyAction now "update_frames_kittis" (Some f) (Some k) s)
    with (if bool_decide (Session.pricingMethod s = frame_kitti)
          then Session.set_kittis (Z.max 0 k) (Session.set_frames (Z.max 0 f) s)
          else s).
  rewrite bool_decide_eq_true_2 by done.
  destruct (updateTotalCost_totals now
              (Session.set_kittis (Z.max 0 k) (Session.set_frames (Z.max 0 f) s)))
    as (-> & -> & Hg' & ->).
  rewrite Hg'. destruct s. cbn in Hpm. subst. split_and!; reflexivity.
Qed.

Lemma X16_witness :
  let r := SessionController.updateSession Example.db_fresh_fk Example.alice
             (Example.T0 + Example.minute) 11%positive "update_frames_kittis"
             (Some 3) (Some (-2)) in
  success r.1 = true ∧
  ∃ s', sessions r.2 !! 11%positive = Some s' ∧
        Session.frames s' = Z.max 0 3 ∧ Session.kittis s' = Z.max 0 (-2) ∧
        Session.gameCost s' =
          (inject_Z (Z.max 0 3)
           * Session.frameRate
               (SessionController.sessionData Example.alice Example.T0 2%positive
                  Example.table_fk)
           + inject_Z (Z.max 0 (-2))
             * Session.kittiRate
                 (SessionController.sessionData Example.alice Example.T0 2%positive
                    Example.table_fk))%Q ∧
        Session.totalCost s' = (Session.gameCost s' + Session.totalItemsRevenue s')%Q.
Proof.
  apply X16_frames_kittis_update;
    [vm_compute; reflexivity | reflexivity | reflexivity | reflexivity].
Defined.

(** ** Table numbering *)

Lemma scan_least_free numbers : ∀ i,
  StronglySorted Z.lt numbers →
  (∀ n, n ∈ numbers → i < n) →
  i < TableNumbering.scan i numbers ∧
  (TableNumbering.scan i numbers ∉ numbers) ∧
  ∀ k, i < k < TableNumbering.scan i numbers → k ∈ numbers.
Proof.
  induction numbers as [|n rest IH]; intros i Hs Hlo; simpl.
  - split_and!.
    + lia.
    + by intros ?%not_elem_of_nil.
    + intros k Hk. lia.
  - apply StronglySorted_inv in Hs as [Hs Hall]. rewrite Forall_forall in Hall.
    assert (i < n) by (apply Hlo, elem_of_cons; by left).
    destruct (Z.eqb_spec n (i + 1)) as [->|Hne]; simpl.
    + destruct (IH (i + 1) Hs) as (H1 & H2 & H3).
      { intros m Hm. by apply Hall. }
      split_and!; [lia | |].
      * intros [?|?]%elem_of_cons; [lia | done].
      * intros k Hk. apply elem_of_cons.
        destruct (decide (k = i + 1)) as [->|?]; [by left|].
        right. apply H3. lia.
    + split_and!; [lia | | intros; lia].
      intros [?|Hin]%elem_of_cons; [lia|].
      apply Hall in Hin. lia.
Qed.

(** X17: on a venue's table numbers in strictly ascending order, all at
    least 1, [getNextTableNumber] returns the least positive number that
    no table carries. *)
Theorem X17_getNextTableNumber_least_free numbers :
  StronglySorted Z.lt numbers →
  (∀ n, n ∈ numbers → 1 ≤ n) →
  1 ≤ TableNumbering.getNextTableNumber numbers ∧
  (TableNumbering.getNextTableNumber numbers ∉ numbers) ∧
  ∀ k, 1 ≤ k < TableNumbering.getNextTableNumber numbers → k ∈ numbers.
Proof.
  intros Hs Hlo. unfold TableNumbering.getNextTableNumber.
  destruct numbers as [|n rest].
  - simpl. split_and!; [lia | by intros ?%not_elem_of_nil | intros; lia].
  - replace (Z.of_nat (length (n :: rest)) =? 0) with false by (simpl; lia).
    destruct (scan_least_free (n :: rest) 0 Hs) as (H1 & H2 & H3).
    { intros m Hm. specialize (Hlo m Hm). lia. }
    split_and!; [lia | done | intros k Hk; apply H3; lia].
Qed.

Lemma X17_witness :
  1 ≤ TableNumbering.getNextTableNumber [1; 2; 4; 7] ∧
  (TableNumbering.getNextTableNumber [1; 2; 4; 7] ∉ [1; 2; 4; 7]) ∧
  ∀ k, 1 ≤ k < TableNumbering.getNextTableNumber [1; 2; 4; 7] → k ∈ [1; 2; 4; 7].
Proof.
  apply X17_getNextTableNumber_least_free.
  - repeat constructor; lia.
  - intros n Hn. repeat (apply elem_of_cons in Hn as [->|Hn]; [lia|]).
    by apply not_elem_of_nil in Hn.
Defined.

(** ** Bulk actions *)

Lemma findOwned_elem db user ids i s :
  (i, s) ∈ BulkActions.findOwned db user ids ↔
  sessions db !! i = Some s ∧ i ∈ ids ∧ Session.owner s = user.
Proof.
  unfold BulkActions.findOwned.
  rewrite list_elem_of_In, filter_In, <- list_elem_of_In, elem_of_map_to_list.
  cbn. rewrite andb_true_iff, bool_decide_eq_true, Pos.eqb_eq. tauto.
Qed.

Lemma findOwned_NoDup db user ids : NoDup (BulkActions.findOwned db user ids).
Proof.
  unfold BulkActions.findOwned. apply NoDup_ListNoDup, List.NoDup_filter.
  apply NoDup_ListNoDup, NoDup_map_to_list.
Qed.

Lemma cancelOne_terminal now db res i s :
  isTerminal s = true →
  BulkActions.cancelOne now (db, res) (i, s) = (db, res ++ [(i, false)]).
Proof. unfold isTerminal. intros H. unfold BulkActions.cancelOne. by rewrite H. Qed.

Lemma cancelOne_open now db res i s :
  isTerminal s = false →
  BulkActions.cancelOne now (db, res) (i, s) =
  ({| tables := free_table (Session.table s) (tables db);
      sessions := <[i := cancelled_at now s]> (sessions db);
      products := SessionController.restoreStock (Session.items s) (products db) |},
   res ++ [(i, true)]).
Proof.
  unfold isTerminal. intros H. unfold BulkActions.cancelOne. rewrite H. cbn zeta.
  fold (cancelled_at now s).
  assert (Session.table (cancelled_at now s) = Session.table s) as -> by by destruct s.
  unfold free_table. db_cbn. by destruct (tables db !! Session.table s).
Qed.

Lemma cancelled_at_terminal now s : isTerminal (cancelled_at now s) = true.
Proof. by destruct s. Qed.

Lemma bulk_cancel_all_terminal now l : ∀ db res,
  (∀ i s, (i, s) ∈ l → isTerminal s = true) →
  (fold_left (BulkActions.cancelOne now) l (db, res)).1 = db.
Proof.
  induction l as [|[i s] l IH]; intros db res H; cbn [fold_left]; [done|].
  rewrite cancelOne_terminal by (apply (H i); by left).
  apply IH. intros j sj Hj. apply (H j). by right.
Qed.

Lemma bulk_cancel_sessions now l : ∀ db res i s',
  sessions (fold_left (BulkActions.cancelOne now) l (db, res)).1 !! i = Some s' →
  (∃ s, (i, s) ∈ l ∧ s' = cancelled_at now s) ∨
  (sessions db !! i = Some s' ∧ ∀ s, (i, s) ∈ l → isTerminal s = true).
Proof.
  induction l as [|[k sk] l IH]; intros db res i s' H; cbn [fold_left] in H.
  - right. split; [done|]. by intros s ?%not_elem_of_nil.
  - destruct (isTerminal sk) eqn:Hk.
    + rewrite cancelOne_terminal in H by done.
      destruct (IH _ _ _ _ H) as [(s & Hin & ->)|[Hdb Hall]].
      * left. exists s. split; [by right | done].
      * right. split; [done|]. intros s [[= -> ->]|?]%elem_of_cons; [done|]. by apply Hall.
    + rewrite cancelOne_open in H by done.
      destruct (IH _ _ _ _ H) as [(s & Hin & ->)|[Hdb Hall]].
      * left. exists s. split; [by right | done].
      * cbn in Hdb. destruct (decide (k = i)) as [->|Hne].
        -- rewrite lookup_insert_eq in Hdb. injection Hdb as <-.
           left. exists sk. split; [by left | done].
        -- rewrite lookup_insert_ne in Hdb by done.
           right. split; [done|].
           intros s [[= -> ->]|?]%elem_of_cons; [done|]. by apply Hall.
Qed.

Lemma bulk_cancel_db db user now ids :
  (BulkActions.bulkSessionAction db user now ids "cancel").1.2 =
  if (Z.of_nat (length ids) =? 0)
     || negb (Nat.eqb (length (BulkActions.findOwned db user ids)) (length ids))
  then db
  else (fold_left (BulkActions.cancelOne now) (BulkActions.findOwned db user ids)
          (db, [])).1.
Proof.
  unfold BulkActions.bulkSessionAction.
  destruct (Z.of_nat (length ids) =? 0); [done|]. cbn.
  destruct (negb _); [done|].
  by destruct (fold_left _ _ _).
Qed.

(** X18: a second bulk cancel of the same ids changes nothing in the
    store: unlike [cancelSession], the bulk path skips sessions that are
    already cancelled, so their stock is not restored again. *)
Theorem X18_second_bulk_cancel_changes_nothing db user now1 now2 ids :
  let r1 := BulkActions.bulkSessionAction db user now1 ids "cancel" in
  let r2 := BulkActions.bulkSessionAction r1.1.2 user now2 ids "cancel" in
  r2.1.2 = r1.1.2.
Proof.
  cbv zeta. rewrite (bulk_cancel_db db user now1).
  destruct ((Z.of_nat (length ids) =? 0)
            || negb (Nat.eqb (length (BulkActions.findOwned db user ids)) (length ids)))
    eqn:E.
  - by rewrite bulk_cancel_db, E.
  - set (D := (fold_left (BulkActions.cancelOne now1)
                 (BulkActions.findOwned db user ids) (db, [])).1).
    rewrite bulk_cancel_db.
    destruct ((Z.of_nat (length ids) =? 0)
              || negb (Nat.eqb (length (BulkActions.findOwned D user ids)) (length ids)));
      [done|].
    apply bulk_cancel_all_terminal.
    intros i s' [Hs [Hi Ho]]%findOwned_elem. subst D.
    destruct (bulk_cancel_sessions _ _ _ _ _ _ Hs) as [(s & _ & ->)|[Hdb Hall]].
    + apply cancelled_at_terminal.
    + apply Hall. by apply findOwned_elem.
Qed.

Lemma NoDup_all_equal {A} (l : list A) (a : A) :
  NoDup l → (∀ x, x ∈ l → x = a) → a ∈ l → l = [a].
Proof.
  intros Hnd Hall Ha. destruct l as [|x l]; [by apply not_elem_of_nil in Ha|].
  assert (x = a) as -> by (apply Hall; by left).
  destruct l as [|y l]; [done|].
  assert (y = a) as -> by (apply Hall; right; by left).
  apply NoDup_cons in Hnd as [Hn _]. destruct Hn. by left.
Qed.

Lemma findOwned_single db user sid s :
  sessions db !! sid = Some s → Session.owner s = user →
  BulkActions.findOwned db user [sid] = [(sid, s)].
Proof.
  intros Hs Ho. apply NoDup_all_equal.
  - apply findOwned_NoDup.
  - intros [i x] [Hx [Hi _]]%findOwned_elem.
    apply list_elem_of_singleton in Hi as ->. congruence.
  - apply findOwned_elem. split_and!; [done | by left | done].
Qed.

(** X19: bulk cancel of a single session of the caller that is neither
    completed nor cancelled leaves the store exactly as [cancelSession]
    on that session does. *)
Theorem X19_bulk_cancel_of_one_agrees_with_cancelSession db user now sid s :
  sessions db !! sid = Some s → Session.owner s = user →
  Session.status s ≠ Session.completed → Session.status s ≠ Session.cancelled →
  let r := BulkActions.bulkSessionAction db user now [sid] "cancel" in
  success r.1.1 = true ∧ r.2 = [(sid, true)] ∧
  r.1.2 = (SessionController.cancelSession db user now sid).2.
Proof.
  intros Hs Ho Hn1 Hn2. cbv zeta.
  rewrite (cancelSession_ok _ _ _ _ _ Hs Ho Hn1).
  unfold BulkActions.bulkSessionAction.
  rewrite (findOwned_single _ _ _ _ Hs Ho).
  change (fold_left (BulkActions.cancelOne now) [(sid, s)] (db, []))
    with (BulkActions.cancelOne now (db, []) (sid, s)).
  rewrite cancelOne_open; [done|].
  unfold isTerminal. by rewrite !bool_decide_eq_false_2.
Qed.

Lemma X19_witness :
  let r := BulkActions.bulkSessionAction Example.db_paid_100 Example.alice Example.T30
             [10%positive] "cancel" in
  success r.1.1 = true ∧ r.2 = [(10%positive, true)] ∧
  r.1.2 = (SessionController.cancelSession Example.db_paid_100 Example.alice
             Example.T30 10%positive).2.
Proof.
  eapply X19_bulk_cancel_of_one_agrees_with_cancelSession;
    [ vm_compute; reflexivity | reflexivity | vm_compute; discriminate
    | vm_compute; discriminate ].
Defined.

Lemma deleteOne_cancelled db res i s :
  Session.status s = Session.cancelled →
  BulkActions.deleteOne (db, res) (i, s) =
  (set_sessions (delete i (sessions db)) db, res ++ [(i, true)]).
Proof. intros H. unfold BulkActions.deleteOne. by rewrite bool_decide_eq_true_2. Qed.

Lemma deleteOne_other db res i s :
  Session.status s ≠ Session.cancelled →
  BulkActions.deleteOne (db, res) (i, s) = (db, res ++ [(i, false)]).
Proof. intros H. unfold BulkActions.deleteOne. by rewrite bool_decide_eq_false_2. Qed.

Lemma bulk_delete_kept l : ∀ db res i,
  (∀ s, (i, s) ∈ l → Session.status s ≠ Session.cancelled) →
  sessions (fold_left BulkActions.deleteOne l (db, res)).1 !! i = sessions db !! i.
Proof.
  induction l as [|[k sk] l IH]; intros db res i H; cbn [fold_left]; [done|].
  assert (Hrest : ∀ s, (i, s) ∈ l → Session.status s ≠ Session.cancelled)
    by (intros s Hs; apply H; by right).
  destruct (decide (Session.status sk = Session.cancelled)) as [Hc|Hc].
  - rewrite deleteOne_cancelled by done. rewrite IH by done. db_cbn.
    apply lookup_delete_ne. intros ->. apply (H sk); [by left | done].
  - rewrite deleteOne_other by done. by apply IH.
Qed.

Lemma bulk_delete_gone l : ∀ db res i,
  sessions db !! i = None →
  sessions (fold_left BulkActions.deleteOne l (db, res)).1 !! i = None.
Proof.
  induction l as [|[k sk] l IH]; intros db res i H; cbn [fold_left]; [done|].
  destruct (decide (Session.status sk = Session.cancelled)) as [Hc|Hc].
  - rewrite deleteOne_cancelled by done. apply IH. db_cbn.
    rewrite lookup_delete. case_decide; done.
  - rewrite deleteOne_other by done. by apply IH.
Qed.

Lemma bulk_delete_removed l : ∀ db res i s,
  (i, s) ∈ l → Session.status s = Session.cancelled →
  sessions (fold_left BulkActions.deleteOne l (db, res)).1 !! i = None.
Proof.
  induction l as [|[k sk] l IH]; intros db res i s Hin Hst; cbn [fold_left].
  - by apply not_elem_of_nil in Hin.
  - apply elem_of_cons in Hin as [[= -> ->]|Hin].
    + rewrite deleteOne_cancelled by done. apply bulk_delete_gone. db_cbn.
      apply lookup_delete_eq.
    + destruct (decide (Session.status sk = Session.cancelled)) as [Hc|Hc].
      * rewrite deleteOne_cancelled by done. by eapply IH.
      * rewrite deleteOne_other by done. by eapply IH.
Qed.

Lemma bulk_delete_other l : ∀ db res,
  products (fold_left BulkActions.deleteOne l (db, res)).1 = products db ∧
  tables (fold_left BulkActions.deleteOne l (db, res)).1 = tables db.
Proof.
  induction l as [|[k sk] l IH]; intros db res; cbn [fold_left]; [done|].
  destruct (decide (Session.status sk = Session.cancelled)) as [Hc|Hc].
  - rewrite deleteOne_cancelled by done.
    by destruct (IH (set_sessions (delete k (sessions db)) db) (res ++ [(k, true)])).
  - rewrite deleteOne_other by done. apply IH.
Qed.

Lemma length_difference_le (ids k : list ObjectId) :
  (length (list_difference ids k) ≤ length ids)%nat.
Proof.
  induction ids as [|a ids IH]; simpl; [done|].
  destruct (decide_rel elem_of a k); simpl; lia.
Qed.

Lemma length_difference_lt (ids : list ObjectId) i :
  i ∈ ids → (length (list_difference ids [i]) < length ids)%nat.
Proof.
  induction ids as [|a ids IH]; intros Hin; [by apply not_elem_of_nil in Hin|].
  simpl. destruct (decide_rel elem_of a [i]) as [Ha|Ha].
  - pose proof (length_difference_le ids [i]). lia.
  - apply elem_of_cons in Hin as [->|Hin].
    + destruct Ha. apply elem_of_cons. by left.
    + simpl. specialize (IH Hin). lia.
Qed.

Lemma findOwned_full db user ids i s :
  length (BulkActions.findOwned db user ids) = length ids →
  i ∈ ids → sessions db !! i = Some s → Session.owner s = user.
Proof.
  intros E1 Hin Hi.
  destruct (decide (Session.owner s = user)) as [|Hno]; [done|]. exfalso.
  assert (Hsub : ∀ j, j ∈ (BulkActions.findOwned db user ids).*1 → j ∈ ids ∧ j ≠ i).
  { intros j ([j' sj] & -> & [Hj [Hjin Hjo]]%findOwned_elem)%list_elem_of_fmap.
    split; [done|]. cbn. intros ->. congruence. }
  assert (Hnd : NoDup (BulkActions.findOwned db user ids).*1).
  { eapply NoDup_fmap_fst.
    - intros j x y [Hx _]%findOwned_elem [Hy _]%findOwned_elem. congruence.
    - apply findOwned_NoDup. }
  assert (Hlen : (length (BulkActions.findOwned db user ids).*1
                  ≤ length (list_difference ids [i]))%nat).
  { apply submseteq_length, NoDup_submseteq; [done|].
    intros j Hj. destruct (Hsub j Hj). apply list_elem_of_difference.
    split; [done|]. by intros ->%list_elem_of_singleton. }
  rewrite length_fmap, E1 in Hlen.
  pose proof (length_difference_lt ids i Hin). lia.
Qed.

(** X20: a bulk delete that goes through removes exactly the requested
    sessions whose status is cancelled; every other session, every
    product and every table is left as it was. *)
Theorem X20_bulk_delete_removes_only_cancelled db user now ids :
  let r := BulkActions.bulkSessionAction db user now ids "delete" in
  products r.1.2 = products db ∧ tables r.1.2 = tables db ∧
  ∀ i, sessions r.1.2 !! i =
       match sessions db !! i with
       | Some s =>
           if success r.1.1 && bool_decide (i ∈ ids)
              && bool_decide (Session.status s = Session.cancelled)
           then None else Some s
       | None => None
       end.
Proof.
  cbv zeta. unfold BulkActions.bulkSessionAction.
  destruct (Z.of_nat (length ids) =? 0);
    [cbn; split_and!; try done; intros i; by destruct (sessions db !! i)|].
  cbn [negb String.eqb orb]. cbn.
  destruct (negb (Nat.eqb _ _)) eqn:E1;
    [cbn; split_and!; try done; intros i; by destruct (sessions db !! i)|].
  apply negb_false_iff, Nat.eqb_eq in E1.
  pose proof (bulk_delete_other (BulkActions.findOwned db user ids) db []) as [Hp Ht].
  pose proof (bulk_delete_kept (BulkActions.findOwned db user ids) db []) as Hk.
  pose proof (bulk_delete_gone (BulkActions.findOwned db user ids) db []) as Hg.
  pose proof (bulk_delete_removed (BulkActions.findOwned db user ids) db []) as Hr.
  destruct (fold_left _ _ _) as [d r]. cbn in *.
  split_and!; try done. intros i.
  destruct (sessions db !! i) as [s|] eqn:Hi; [|by apply Hg].
  destruct (bool_decide_reflect (i ∈ ids)) as [Hin|Hin]; cbn.
  - destruct (bool_decide_reflect (Session.status s = Session.cancelled)) as [Hst|Hst].
    + apply (Hr i s); [|done]. apply findOwned_elem. split_and!; try done.
      by eapply findOwned_full.
    + rewrite Hk; [done|]. intros s' [Hs' _]%findOwned_elem. congruence.
  - rewrite Hk; [done|]. by intros s' [_ [? _]]%findOwned_elem.
Qed.

(** ** Point-of-sale stock updates *)

Lemma prepare_inr db user lines : ∀ items ups items' ups',
  Sales.prepare db user lines items ups = inr (items', ups') →
  ∃ newItems newUps,
    items' = items ++ newItems ∧ ups' = ups ++ newUps ∧
    Forall3 (line_ok db user) lines newItems newUps.
Proof.
  induction lines as [|line lines IH]; intros items ups items' ups' H; simpl in H.
  - injection H as <- <-. exists [], []. rewrite !app_nil_r. split_and!; try done.
    constructor.
  - destruct (products db !! Sales.productId line) as [p|] eqn:Hp; [|done].
    destruct (Pos.eqb_spec (Product.owner p) user) as [Ho|]; [|done]. cbn in H.
    destruct (Product.currentStock p <? Sales.quantity line) eqn:Hq; [done|].
    apply IH in H as (newItems & newUps & -> & -> & HF).
    eexists (_ :: newItems), (_ :: newUps).
    rewrite <- !app_assoc. split_and!; try reflexivity.
    constructor; [|done]. exists p. split_and!; try done. lia.
Qed.

Lemma applyUpdates_snoc ups u (coll : gmap ObjectId Product.t) :
  Sales.applyUpdates (ups ++ [u]) coll =
  match Sales.applyUpdates ups coll !! u.1 with
  | Some p => <[u.1 := Product.set_currentStock u.2 p]> (Sales.applyUpdates ups coll)
  | None => Sales.applyUpdates ups coll
  end.
Proof. unfold Sales.applyUpdates. by rewrite fold_left_app. Qed.

Lemma applyUpdates_lookup ups (coll : gmap ObjectId Product.t) pid :
  Sales.applyUpdates ups coll !! pid =
  (fun p => match last_update pid ups with
            | Some v => Product.set_currentStock v p
            | None => p
            end) <$> coll !! pid.
Proof.
  induction ups as [|[k v] ups IH] using rev_ind.
  - cbn. by destruct (coll !! pid).
  - rewrite applyUpdates_snoc. unfold last_update. rewrite fold_left_app.
    cbn [fold_left fst snd]. fold (last_update pid ups).
    destruct (Pos.eqb_spec k pid) as [->|Hne].
    + rewrite IH. destruct (coll !! pid) as [p|] eqn:Hp; cbn [fmap option_fmap option_map].
      * rewrite lookup_insert_eq. destruct p, (last_update pid ups); reflexivity.
      * by rewrite IH.
    + destruct (Sales.applyUpdates ups coll !! k); [|done].
      by rewrite lookup_insert_ne.
Qed.

Lemma last_update_lines db user lines items ups pid p :
  Forall3 (line_ok db user) lines items ups →
  products db !! pid = Some p →
  last_update pid ups = (fun q => Product.currentStock p - q) <$> last_quantity pid lines ∧
  (∀ q, last_quantity pid lines = Some q → q ≤ Product.currentStock p).
Proof.
  intros HF Hp. unfold last_update, last_quantity.
  assert (G : ∀ a b,
    a = (fun q => Product.currentStock p - q) <$> b →
    (∀ q, b = Some q → q ≤ Product.currentStock p) →
    fold_left (fun acc u => if Pos.eqb u.1 pid then Some u.2 else acc) ups a =
      (fun q => Product.currentStock p - q) <$>
        fold_left (fun acc line => if Pos.eqb (Sales.productId line) pid
                                   then Some (Sales.quantity line) else acc) lines b ∧
    (∀ q, fold_left (fun acc line => if Pos.eqb (Sales.productId line) pid
                                     then Some (Sales.quantity line) else acc) lines b
          = Some q → q ≤ Product.currentStock p)).
  { induction HF as [|line item u lines items ups (p' & Hp' & _ & Hq & _ & _ & ->) HF IH];
      intros a b Ha Hb; cbn; [done|].
    apply IH.
    - destruct (Pos.eqb_spec (Sales.productId line) pid) as [E|_]; [|done].
      rewrite E in Hp'. cbn. congruence.
    - intros q. destruct (Pos.eqb_spec (Sales.productId line) pid) as [E|_]; [|apply Hb].
      intros [= <-]. rewrite E in Hp'. congruence. }
  by destruct (G None None) as [G1 G2].
Qed.

Lemma sale_items_quantities db user lines items ups :
  Forall3 (line_ok db user) lines items ups →
  Sales.itemQuantity <$> items = Sales.quantity <$> lines.
Proof.
  induction 1 as [|line item u lines items ups (p' & _ & _ & _ & Hi & _) HF IH];
    [done|]. cbn. by rewrite Hi, IH.
Qed.

(** X21: when [recordSale] goes through, the sale lists every requested
    line with its quantity, but each product's stock becomes its stock
    before the sale minus the quantity of the last line naming it (a
    product named by no line keeps its stock): when a product is listed
    twice only the last line is deducted.  The new stock is never
    negative. *)
Theorem X21_recordSale_deducts_last_line_only db user hasHouse saleSaved lines :
  let r := Sales.recordSale db user hasHouse saleSaved lines in
  success r.1.1 = true →
  Sales.itemQuantity <$> r.2 = Sales.quantity <$> lines ∧
  ∀ pid p, products db !! pid = Some p →
    ∃ p', products r.1.2 !! pid = Some p' ∧
          Product.currentStock p' =
            match last_quantity pid lines with
            | Some q => Product.currentStock p - q
            | None => Product.currentStock p
            end ∧
          (0 ≤ Product.currentStock p → 0 ≤ Product.currentStock p').
Proof.
  cbv zeta. unfold Sales.recordSale.
  destruct (negb hasHouse); [done|].
  destruct (Z.of_nat (length lines) =? 0); [done|].
  destruct (Sales.prepare db user lines [] []) as [resp|[items ups]] eqn:Hprep.
  { cbn. intros Hs. exfalso. revert Hprep Hs. generalize (@nil Sales.SaleItem).
    generalize (@nil (ObjectId * Z)). induction lines as [|line lines IH]; [done|].
    intros u0 i0. cbn.
    destruct (products db !! Sales.productId line); [|by intros [= <-]].
    destruct (negb _); [by intros [= <-]|].
    destruct (_ <? _); [by intros [= <-]|]. apply IH. }
  destruct (negb saleSaved); [done|]. cbn. intros _.
  apply prepare_inr in Hprep as (newItems & newUps & -> & -> & HF). cbn.
  split.
  - by eapply sale_items_quantities.
  - intros pid p Hp. rewrite applyUpdates_lookup, Hp. cbn.
    destruct (last_update_lines db user lines newItems newUps pid p HF Hp)
      as (-> & Hle).
    eexists. split; [reflexivity|].
    destruct (last_quantity pid lines) as [q|]; cbn; [|done].
    specialize (Hle q eq_refl). split; [done | lia].
Qed.

Lemma X21_witness :
  let r := Sales.recordSale Example.db0 Example.alice true true
             [ {| Sales.productId := 7%positive; Sales.quantity := 6 |};
               {| Sales.productId := 7%positive; Sales.quantity := 8 |} ] in
  Sales.itemQuantity <$> r.2 = [6; 8] ∧
  ∀ pid p, products Example.db0 !! pid = Some p →
    ∃ p', products r.1.2 !! pid = Some p' ∧
          Product.currentStock p' =
            match last_quantity pid
                    [ {| Sales.productId := 7%positive; Sales.quantity := 6 |};
                      {| Sales.productId := 7%positive; Sales.quantity := 8 |} ] with
            | Some q => Product.currentStock p - q
            | None => Product.currentStock p
            end ∧
          (0 ≤ Product.currentStock p → 0 ≤ Product.currentStock p').
Proof.
  apply (X21_recordSale_deducts_last_line_only Example.db0 Example.alice true true
           [ {| Sales.productId := 7%positive; Sales.quantity := 6 |};
             {| Sales.productId := 7%positive; Sales.quantity := 8 |} ]).
  vm_compute. reflexivity.
Defined.
